(** * Basic-App: the FastAPI demonstration services, embedded and verified

    The development follows the three service modules of [test_app]:
    - [Api]          : [test_app/api.py], the core demonstration service;
    - [Users]        : [test_app/users.py], the user and error-handling module;
    - [Dependencies] : [test_app/dependencies.py], the dependency-injection module.

    [Py] holds the Python values and built-ins the handlers use, [Framework]
    the part of the request-handling runtime the modules rely on: the routing
    table filled by the [@app.get]/[@app.post]/[@app.put] decorators and its
    lookup, the response contract of [response_model], dependencies, and the
    rendering of raised exceptions. *)

From Stdlib Require Import String Ascii List ZArith Bool Lia.
Import ListNotations.
Open Scope string_scope.
Open Scope list_scope.

(* ===================================================================== *)
(** ** Python values, exceptions and built-ins *)
(* ===================================================================== *)
Module Py.

(** JSON-like values handed around by the handlers.  A float literal of the
    source is kept as a decimal: [VFloat m e] stands for [m * 10^e]
    ([50.2] is [VFloat 502 (-1)]); no handler modelled here computes on it. *)
#[warnings="-register-all"]
Inductive value : Type :=
| VNone
| VBool (b : bool)
| VInt (z : Z)
| VFloat (m e : Z)
| VStr (s : string)
| VList (l : list value)
| VDict (d : list (string * value)).

(** A [dict] with string keys.  Python dicts keep insertion order, and
    [random.choice(list(data.items()))] depends on it, so a dict is an
    association list in insertion order. *)
Definition dict (V : Type) : Type := list (string * V).

(** One entry of a validation error: where, what, and the offending input. *)
Record error_details : Type := mkError {
  loc : list string;
  msg : string;
  input : value
}.

(** The exceptions raised by the modelled code and by the runtime. *)
Inductive exn : Type :=
| HTTPException (status_code : Z) (detail : string)
| RequestValidationError (errors : list error_details)
| ResponseValidationError (msg : string)
| ValidationError (msg : string)
| ValueError (msg : string)
| KeyError (key : string)
| IndexError (msg : string)
| AttributeError (msg : string)
| TypeError (msg : string)
| OverflowError (msg : string)
| UnicornException (name : string)
| OwnerError (payload : string).

(** A call either returns or raises. *)
Inductive result (A : Type) : Type :=
| Return (a : A)
| Raise (e : exn).
Arguments Return {A} a.
Arguments Raise {A} e.

Definition bind {A B} (r : result A) (k : A -> result B) : result B :=
  match r with
  | Return a => k a
  | Raise e => Raise e
  end.

Declare Scope py_scope.
Delimit Scope py_scope with py.
Notation "x <- r ;; k" := (bind r (fun x => k))
  (at level 61, r at next level, right associativity) : py_scope.

(** [d.get(k)], [k in d], [d[k]] *)
Fixpoint get {V} (d : dict V) (k : string) : option V :=
  match d with
  | [] => None
  | (k', v) :: d' => if String.eqb k' k then Some v else get d' k
  end.

Definition contains {V} (d : dict V) (k : string) : bool :=
  match get d k with Some _ => true | None => false end.

Definition getitem {V} (d : dict V) (k : string) : result V :=
  match get d k with
  | Some v => Return v
  | None => Raise (KeyError k)
  end.

Definition keys {V} (d : dict V) : list string := map fst d.

(** [d[k] = v]: the value of an existing key is replaced where the key
    stands, a new key goes to the end. *)
Fixpoint setitem {V} (d : dict V) (k : string) (v : V) : dict V :=
  match d with
  | [] => [(k, v)]
  | (k', v') :: d' =>
      if String.eqb k' k then (k', v) :: d' else (k', v') :: setitem d' k v
  end.

(** [d.update(other)], also [{**d, **other}] *)
Definition update {V} (d other : dict V) : dict V :=
  fold_left (fun acc kv => setitem acc (fst kv) (snd kv)) other d.

(** [s.startswith(prefixes)] with a tuple of prefixes *)
Definition startswith (s : string) (prefixes : list string) : bool :=
  existsb (fun p => String.prefix p s) prefixes.

(** Truth value of an [str | None] in [if q:] *)
Definition truthy (q : option string) : bool :=
  match q with
  | Some s => negb (String.eqb s "")
  | None => false
  end.

(** [l[start:stop]] for a list and two ints (step 1).  An index below zero
    counts from the end; both are then clamped to [0, len]. *)
Definition slice_index (len i : Z) : Z :=
  if (i <? 0)%Z then Z.max (i + len) 0 else Z.min i len.

Definition slice {A} (l : list A) (start stop : Z) : list A :=
  let len := Z.of_nat (length l) in
  let lo := slice_index len start in
  let hi := slice_index len stop in
  firstn (Z.to_nat (hi - lo)) (skipn (Z.to_nat lo) l).

(** [random.choice(seq)]: the generator's draw is the argument [draw];
    the element at [draw mod len(seq)] is returned. *)
Definition random_choice {A} (draw : nat) (seq : list A) : option A :=
  nth_error seq (draw mod length seq).

(** *** [datetime], [timedelta] *)

(** A [timedelta] is a whole number of microseconds. *)
Definition timedelta : Type := Z.

Definition us_per_day : Z := 86400 * 1000000.

(** [datetime.max] is 9999-12-31T23:59:59.999999: 3652059 days from
    0001-01-01 ([_MAXORDINAL]). *)
Definition MAXORDINAL : Z := 3652059.

(** A [datetime]: the wall-clock reading in microseconds since
    0001-01-01T00:00:00 and, when the value is timezone-aware, its UTC
    offset in microseconds. *)
Record datetime : Type := mkDatetime {
  wall : Z;
  utcoffset : option Z
}.

Definition datetime_ok (d : datetime) : Prop :=
  (0 <= wall d < MAXORDINAL * us_per_day)%Z /\
  match utcoffset d with
  | Some o => (- us_per_day < o < us_per_day)%Z
  | None => True
  end.

(** The instant a [datetime] denotes: its wall clock less its UTC offset
    (a naive value is read as it stands). *)
Definition instant (d : datetime) : Z :=
  (wall d - match utcoffset d with Some o => o | None => 0 end)%Z.

Definition timedelta_ok (t : timedelta) : Prop :=
  (-999999999 * us_per_day <= t < 1000000000 * us_per_day)%Z.

(** [datetime.__add__(timedelta)]: the wall clock moves, the timezone
    stays; a result outside [datetime.min, datetime.max] raises. *)
Definition datetime_add (d : datetime) (t : timedelta) : result datetime :=
  let w := (wall d + t)%Z in
  if ((0 <=? w) && (w <? MAXORDINAL * us_per_day))%Z
  then Return (mkDatetime w (utcoffset d))
  else Raise (OverflowError "date value out of range").

(** [datetime.__sub__(datetime)]: two naive values give the difference of
    the wall clocks, two aware values the difference of the UTC instants,
    and a naive with an aware one raises [TypeError]. *)
Definition datetime_sub (a b : datetime) : result timedelta :=
  match utcoffset a, utcoffset b with
  | None, None => Return (wall a - wall b)%Z
  | Some oa, Some ob => Return ((wall a - oa) - (wall b - ob))%Z
  | _, _ =>
      Raise (TypeError "can't subtract offset-naive and offset-aware datetimes")
  end.

End Py.

(* ===================================================================== *)
(** ** The request-handling runtime the three modules are written against *)
(* ===================================================================== *)
Module Framework.
Import Py.
Local Open Scope py_scope.

(** *** Responses and the rendering of exceptions *)

Inductive content : Type :=
| JSON (v : value)
| PlainText (s : string)
| Redirect (url : string).

Record response : Type := mkResponse {
  status_code : Z;
  body : content
}.

(** The application's default handlers: an [HTTPException] becomes
    [{"detail": detail}] at its own status, a [RequestValidationError] a 422,
    and any other exception leaving a route is a 500. *)
Definition default_exception_handler (e : exn) : response :=
  match e with
  | HTTPException status detail =>
      mkResponse status (JSON (VDict [("detail", VStr detail)]))
  | RequestValidationError errors =>
      mkResponse 422
        (JSON (VDict [("detail",
           VList (map (fun d => VDict [("loc", VList (map VStr (loc d)));
                                       ("msg", VStr (msg d));
                                       ("input", input d)]) errors))]))
  | _ => mkResponse 500 (PlainText "Internal Server Error")
  end.

(** The field names of a response whose body is a JSON object. *)
Definition body_fields (r : response) : list string :=
  match body r with
  | JSON (VDict d) => keys d
  | _ => []
  end.

(** Handlers registered with [@app.exception_handler] come first. *)
Definition render (registered : exn -> option response) (e : exn) : response :=
  match registered e with
  | Some r => r
  | None => default_exception_handler e
  end.

(** *** What ran during a request *)

Inductive event : Type :=
| Enter (fn : string)
| Print (text : string).

Definition event_eqb (a b : event) : bool :=
  match a, b with
  | Enter f, Enter g => String.eqb f g
  | Print s, Print t => String.eqb s t
  | _, _ => false
  end.

(** A computation of the runtime: the functions of the module entered so
    far, in order, and the outcome. *)
Definition M (A : Type) : Type := (list event * result A)%type.

Definition ret {A} (a : A) : M A := ([], Return a).

Definition mbind {A B} (m : M A) (k : A -> M B) : M B :=
  match m with
  | (t, Return a) => let (t', r) := k a in (t ++ t', r)
  | (t, Raise e) => (t, Raise e)
  end.

Definition lift {A} (r : result A) : M A := ([], r).

Definition raise {A} (e : exn) : M A := ([], Raise e).

(** Calling the module's function [fn], whose body is [m]. *)
Definition call {A} (fn : string) (m : M A) : M A :=
  (Enter fn :: fst m, snd m).

Definition print (text : string) : M unit := ([Print text], Return tt).

Declare Scope run_scope.
Delimit Scope run_scope with run.
Notation "x <- m ;; k" := (mbind m (fun x => k))
  (at level 61, m at next level, right associativity) : run_scope.
Notation "m ;; k" := (mbind m (fun _ => k))
  (at level 61, right associativity) : run_scope.

Definition entered (fn : string) (t : list event) : bool :=
  existsb (event_eqb (Enter fn)) t.

Record exchange : Type := mkExchange {
  trace : list event;
  reply : response
}.

(** The value a route returns is sent as JSON with the route's status code;
    an exception is rendered. *)
Definition finish (registered : exn -> option response) (status : Z)
    (m : M value) : exchange :=
  mkExchange (fst m)
    (match snd m with
     | Return v => mkResponse status (JSON v)
     | Raise e => render registered e
     end).

(** A route that returns a response object sends that object. *)
Definition finish_response (registered : exn -> option response)
    (m : M response) : exchange :=
  mkExchange (fst m)
    (match snd m with
     | Return r => r
     | Raise e => render registered e
     end).

(** *** The routing table *)

(** One entry per decorator: [@app.get(path)] appends a route to the
    application's list, so the table is in the order of the source. *)
Record route (E : Type) : Type := mkRoute {
  method : string;
  path : string;
  endpoint : E
}.
Arguments mkRoute {E} method path endpoint.
Arguments method {E} r.
Arguments path {E} r.
Arguments endpoint {E} r.

(** A path template is compiled segment by segment: a literal, [{name}]
    (one non-empty segment, the pattern [[^/]+]) or [{name:path}] (the rest
    of the path, the pattern [.*]).  Every parameter of the templates of
    the three modules fills a whole segment. *)
Inductive segment : Type :=
| Lit (s : string)
| Param (name : string)
| PathParam (name : string).

Definition slash : ascii := "/"%char.

Fixpoint split_slash (s : string) : list string :=
  match s with
  | EmptyString => [EmptyString]
  | String c s' =>
      if Ascii.eqb c slash then EmptyString :: split_slash s'
      else match split_slash s' with
           | h :: t => String c h :: t
           | [] => [String c EmptyString]
           end
  end.

Fixpoint has_slash (s : string) : bool :=
  match s with
  | EmptyString => false
  | String c s' => Ascii.eqb c slash || has_slash s'
  end.

(** What a path parameter of pattern [[^/]+] can be bound to. *)
Definition path_segment (s : string) : Prop :=
  s <> EmptyString /\ has_slash s = false.

Fixpoint join_slash (l : list string) : string :=
  match l with
  | [] => EmptyString
  | [s] => s
  | s :: l' => s ++ "/" ++ join_slash l'
  end.

Definition ends_with (s suffix : string) : bool :=
  let n := String.length s in
  let k := String.length suffix in
  (k <=? n)%nat && String.eqb (substring (n - k) k s) suffix.

Definition parse_segment (s : string) : segment :=
  match s with
  | String "{"%char rest =>
      if ends_with rest ":path}"
      then PathParam (substring 0 (String.length rest - 6) rest)
      else if ends_with rest "}"
      then Param (substring 0 (String.length rest - 1) rest)
      else Lit s
  | _ => Lit s
  end.

Definition compile_path (template : string) : list segment :=
  map parse_segment (split_slash template).

Fixpoint match_segments (tpl : list segment) (segs : list string)
    : option (dict string) :=
  match tpl, segs with
  | [], [] => Some []
  | Lit s :: tpl', x :: segs' =>
      if String.eqb s x then match_segments tpl' segs' else None
  | Param n :: tpl', x :: segs' =>
      if String.eqb x "" then None
      else option_map (cons (n, x)) (match_segments tpl' segs')
  | [PathParam n], x :: segs' => Some [(n, join_slash (x :: segs'))]
  | _, _ => None
  end.

Definition path_match (template p : string) : option (dict string) :=
  match_segments (compile_path template) (split_slash p).

(** [Route.matches]: no match, the path alone, or path and method. *)
Inductive matched : Type :=
| NONE
| PARTIAL
| FULL (path_params : dict string).

Definition matches {E} (r : route E) (m p : string) : matched :=
  match path_match (path r) p with
  | None => NONE
  | Some params => if String.eqb (method r) m then FULL params else PARTIAL
  end.

Inductive dispatched (E : Type) : Type :=
| Matched (e : E) (path_params : dict string)
| MethodNotAllowed (e : E)
| RedirectSlashes (url : string)
| NotFound.
Arguments Matched {E} e path_params.
Arguments MethodNotAllowed {E} e.
Arguments RedirectSlashes {E} url.
Arguments NotFound {E}.

(** The router's loop over its routes: the first full match is handed the
    request at once; the first partial match is remembered and used when
    the loop ends without a full match. *)
Fixpoint scan {E} (routes : list (route E)) (partial : option E)
    (m p : string) : option (dispatched E) :=
  match routes with
  | [] => option_map MethodNotAllowed partial
  | r :: routes' =>
      match matches r m p with
      | FULL params => Some (Matched (endpoint r) params)
      | PARTIAL =>
          scan routes'
               (match partial with None => Some (endpoint r) | Some _ => partial end)
               m p
      | NONE => scan routes' partial m p
      end
  end.

Fixpoint rstrip_slash_rev (r : list ascii) : list ascii :=
  match r with
  | c :: r' => if Ascii.eqb c slash then rstrip_slash_rev r' else r
  | [] => []
  end.

(** [path.rstrip("/")] *)
Definition rstrip_slash (p : string) : string :=
  string_of_list_ascii
    (rev (rstrip_slash_rev (rev (list_ascii_of_string p)))).

(** With no match at all the router tries the path with the trailing
    slash toggled and redirects to it when some route knows that path. *)
Definition dispatch {E} (routes : list (route E)) (m p : string)
    : dispatched E :=
  match scan routes None m p with
  | Some d => d
  | None =>
      if String.eqb p "/" then NotFound
      else
        let p' := if ends_with p "/" then rstrip_slash p else (p ++ "/")%string in
        if existsb (fun r => match matches r m p' with
                             | NONE => false
                             | _ => true
                             end) routes
        then RedirectSlashes p'
        else NotFound
  end.

(** *** Declared models and the response contract *)

(** A field of a declared model: its name, the check of its annotation and
    its default ([None] for a required field). *)
Record field : Type := mkField {
  name : string;
  annotation : value -> option value;
  default : option value
}.

Definition model : Type := list field.

(** Annotations: the validated value, or [None] when the input is refused. *)
Definition str (v : value) : option value :=
  match v with VStr _ => Some v | _ => None end.

Definition optional (t : value -> option value) (v : value) : option value :=
  match v with VNone => Some VNone | _ => t v end.

(** [float]: an int is accepted and becomes a float. *)
Definition float (v : value) : option value :=
  match v with
  | VFloat _ _ => Some v
  | VInt z => Some (VFloat z 0)
  | _ => None
  end.

Definition float_gt0 (v : value) : option value :=
  match float v with
  | Some (VFloat m e) => if (0 <? m)%Z then Some (VFloat m e) else None
  | _ => None
  end.

Definition str_max_length (n : nat) (v : value) : option value :=
  match v with
  | VStr s => if (String.length s <=? n)%nat then Some v else None
  | _ => None
  end.

Definition list_of (t : value -> option value) (v : value) : option value :=
  match v with
  | VList l =>
      option_map VList
        (fold_right (fun x acc =>
                       match t x, acc with
                       | Some y, Some ys => Some (y :: ys)
                       | _, _ => None
                       end) (Some []) l)
  | _ => None
  end.

(** Construction of a model from keyword arguments (a dumped dict unpacked
    into the call) and validation from attributes: each declared field is
    taken from [data] and checked, or takes its default as it is; a key of
    [data] that is no field of the model is ignored (the models below do
    not forbid extra fields).  The instance is the dict of its fields in
    the order of declaration, which is also what [model_dump()] gives. *)
Definition validate_field (f : field) (data : dict value) : result value :=
  match get data (name f) with
  | Some v =>
      match annotation f v with
      | Some v' => Return v'
      | None => Raise (ValidationError (name f ++ ": Input is not valid")%string)
      end
  | None =>
      match default f with
      | Some d => Return d
      | None => Raise (ValidationError (name f ++ ": Field required")%string)
      end
  end.

Fixpoint model_validate (m : model) (data : dict value)
    : result (dict value) :=
  match m with
  | [] => Return []
  | f :: m' =>
      v <- validate_field f data ;;
      rest <- model_validate m' data ;;
      Return ((name f, v) :: rest)
  end.

(** Binding of a request body to a declared model. *)
Definition bind_body (m : model) (body : dict value) : M (dict value) :=
  match model_validate m body with
  | Raise (ValidationError text) =>
      raise (RequestValidationError [mkError ["body"] text (VDict body)])
  | r => lift r
  end.

(** [response_model=M]: what the endpoint returned is validated against
    [M] and the validated instance is what is sent, restricted by
    [response_model_include] and [response_model_exclude] when given; a
    failure is the server's fault. *)
Definition serialize_response (m : model)
    (include : option (list string)) (exclude : list string)
    (returned : dict value) : M value :=
  match model_validate m returned with
  | Return d =>
      ret (VDict (filter (fun kv =>
                     match include with
                     | Some names => existsb (String.eqb (fst kv)) names
                     | None => true
                     end && negb (existsb (String.eqb (fst kv)) exclude)) d))
  | Raise (ValidationError text) => raise (ResponseValidationError text)
  | Raise e => raise e
  end.

(** An [AfterValidator] on an optional query parameter: it runs on a
    supplied value only, and its [ValueError] is a validation error of the
    request. *)
Definition after_validator (param : string) (validator : string -> M string)
    (supplied : option string) : M (option string) :=
  match supplied with
  | None => ret None
  | Some s =>
      match validator s with
      | (t, Return v) => (t, Return (Some v))
      | (t, Raise (ValueError text)) =>
          (t, Raise (RequestValidationError
                       [mkError ["query"; param] ("Value error, " ++ text)%string
                                (VStr s)]))
      | (t, Raise e) => (t, Raise e)
      end
  end.

(** *** Dependencies *)

(** A dependency with [yield]: the value it yields to the route, and the
    exception that leaves the generator when the exception [e] raised by
    the route is thrown in at the [yield]. *)
Record yield_dependency (A : Type) : Type := mkYield {
  yielded : A;
  thrown : exn -> exn
}.
Arguments mkYield {A} yielded thrown.
Arguments yielded {A} y.
Arguments thrown {A} y.

(** The route runs inside the dependency's scope. *)
Definition with_yield {A B} (fn : string) (d : yield_dependency A)
    (route_body : A -> M B) : M B :=
  match mbind (call fn (ret (yielded d))) route_body with
  | (t, Return b) => (t, Return b)
  | (t, Raise e) => (t, Raise (thrown d e))
  end.

(** *** A request for a route *)

(** The path of a template with ["x"] put for each of its parameters. *)
Definition instantiate (template : string) : string :=
  join_slash
    (map (fun s => match parse_segment s with
                   | Lit text => text
                   | Param _ | PathParam _ => "x"
                   end)
         (split_slash template)).

(** The pattern [.*] of a [{name:path}] parameter stops at a line feed. *)
Definition line_feed : ascii := "010"%char.

Fixpoint has_line_feed (s : string) : bool :=
  match s with
  | EmptyString => false
  | String c s' => Ascii.eqb c line_feed || has_line_feed s'
  end.

(** *** Headers of an error response *)

(** A response together with the headers its constructor was given. *)
Record headed_response : Type := mkHeaded {
  sent : response;
  extra_headers : dict string
}.

(** The application's default handler of an [HTTPException] passes the
    exception's [headers] on to the response. *)
Definition default_http_exception_handler (status : Z) (detail : string)
    (headers : dict string) : headed_response :=
  mkHeaded (mkResponse status (JSON (VDict [("detail", VStr detail)]))) headers.

End Framework.

(* ===================================================================== *)
(** ** [test_app/routers.py]: the route-template registry *)
(* ===================================================================== *)
Module Routers.
Import Py.

Definition route_object : dict string :=
  [("users", "/users/{user_id}");
   ("item_id", "/items13/{item_id}");
   ("models", "/models/{model_id}");
   ("files", "/files/{file_path}");
   ("projects", "/projects/{project_id}")].

(** [routers.<attr>]: the table read by attribute. *)
Definition routers (attr : string) : option string := get route_object attr.

End Routers.

(* ===================================================================== *)
(** ** [test_app/api.py]: the core demonstration service *)
(* ===================================================================== *)
Module Api.
Import Py Framework.
Local Open Scope run_scope.

(** *** Models *)
Section Models.

(** The annotations [EmailStr] and [HttpUrl] are checked by libraries
    outside the repository: each gives the validated value or refuses. *)
Variable EmailStr : value -> option value.
Variable HttpUrl : value -> option value.

Definition Image : model :=
  [mkField "name" str None;
   mkField "url" HttpUrl None].

Definition model_of (m : model) (v : value) : option value :=
  match v with
  | VDict d =>
      match model_validate m d with
      | Return d' => Some (VDict d')
      | Raise _ => None
      end
  | _ => None
  end.

Definition Item : model :=
  [mkField "name" str None;
   mkField "description" (optional (str_max_length 300)) (Some VNone);
   mkField "price" float_gt0 None;
   mkField "tax" float (Some VNone);
   mkField "tags" (list_of str) (Some (VList []));
   mkField "image" (optional (list_of (model_of Image))) (Some VNone)].

Definition UserIn : model :=
  [mkField "username" str None;
   mkField "password" str None;
   mkField "email" EmailStr None;
   mkField "full_name" (optional str) (Some VNone)].

Definition UserOut : model :=
  [mkField "username" str None;
   mkField "email" EmailStr None;
   mkField "full_name" (optional str) (Some VNone)].

Definition UserInDB : model :=
  [mkField "username" str None;
   mkField "hashed_password" str None;
   mkField "email" EmailStr None;
   mkField "full_name" (optional str) (Some VNone)].

(** *** Fixtures *)

Definition fake_items_db : list value :=
  [VDict [("item_name", VStr "Foo")];
   VDict [("item_name", VStr "Bar")];
   VDict [("item_name", VStr "Baz")]].

Definition data : dict string :=
  [("isbn-9781529046137", "The Hitchhiker's Guide to the Galaxy");
   ("imdb-tt0371724", "The Hitchhiker's Guide to the Galaxy");
   ("isbn-9781439512982", "Isaac Asimov: The Complete Stories, Vol. 2")].

Definition items : dict (dict value) :=
  [("foo", [("name", VStr "Foo"); ("price", VFloat 502 (-1))]);
   ("bar", [("name", VStr "Bar");
            ("description", VStr "The Bar fighters");
            ("price", VInt 62);
            ("tax", VFloat 202 (-1))]);
   ("baz", [("name", VStr "Baz");
            ("description", VStr "There goes my baz");
            ("price", VFloat 502 (-1));
            ("tax", VFloat 105 (-1))])].

(** *** Functions and endpoints *)

Definition dquote : string := String "034"%char EmptyString.

Definition invalid_id_message : string :=
  "Invalid ID format, it must start with " ++ dquote ++ "isbn-" ++ dquote
  ++ " or " ++ dquote ++ "imdb-" ++ dquote.

Definition check_valid_id (ids : string) : M string :=
  call "check_valid_id"
    (if negb (startswith ids ["isbn-"; "imdb-"])
     then raise (ValueError invalid_id_message)
     else ret ids).

Definition read_items (skip limit : Z) : M value :=
  call "read_items" (ret (VList (slice fake_items_db skip limit))).

Definition opt_str (o : option string) : value :=
  match o with Some s => VStr s | None => VNone end.

(** [draw] is what [random.choice] draws when it is reached. *)
Definition read_items8 (draw : nat) (ids : option string) : M value :=
  call "read_items8"
    (match (if truthy ids then ids else None) with
     | Some ids =>
         let item := get data ids in
         ret (VDict [("id", VStr ids); ("name", opt_str item)])
     | None =>
         match random_choice draw data with
         | Some (ids, item) =>
             ret (VDict [("id", VStr ids); ("name", VStr item)])
         | None => raise (IndexError "Cannot choose from an empty sequence")
         end
     end).

(** A [time] of day and a [UUID], which [update_items9] only passes on. *)
Record time : Type := mkTime {
  us_of_day : Z;
  time_utcoffset : option Z
}.

Definition UUID : Type := Z.

(** The dict [update_items9] returns: its keys are fixed, so a record. *)
Record items9 : Type := mkItems9 {
  item_id : UUID;
  start_datetime : datetime;
  end_datetime : datetime;
  process_after : timedelta;
  repeat_at : option time;
  start_process : datetime;
  duration : timedelta
}.

Definition update_items9 (item_id : UUID)
    (start_datetime end_datetime : datetime) (process_after : timedelta)
    (repeat_at : option time) : M items9 :=
  call "update_items9"
    (start_process <- lift (datetime_add start_datetime process_after) ;;
     duration <- lift (datetime_sub end_datetime start_process) ;;
     ret (mkItems9 item_id start_datetime end_datetime process_after
                   repeat_at start_process duration)).

(** [create_user] of line 517 *)
Definition create_user_l517 (user : dict value) : M (dict value) :=
  call "create_user" (ret user).

Definition portal_url : string :=
  "https://www.youtube.com/watch?v=dQw4w9WgXcQ".

Definition portal_message : value :=
  VDict [("message", VStr "Here's your interdimensional portal.")].

(** [get_portal] of line 523 returns response objects, *)
Definition get_portal_l523 (teleport : bool) : M response :=
  call "get_portal"
    (if teleport then ret (mkResponse 307 (Redirect portal_url))
     else ret (mkResponse 200 (JSON portal_message))).

(** and [get_portal] of line 532 a response object or a dict. *)
Definition get_portal_l532 (teleport : bool) : M (response + value) :=
  call "get_portal"
    (if teleport then ret (inl (mkResponse 307 (Redirect portal_url)))
     else ret (inr portal_message)).

Definition read_item_name (item_id : string) : M (dict value) :=
  call "read_item_name" (lift (getitem items item_id)).

Definition read_item_public_data (item_id : string) : M (dict value) :=
  call "read_item_public_data" (lift (getitem items item_id)).

Definition fake_password_hasher (raw_password : string) : M string :=
  call "fake_password_hasher" (ret ("supersecret" ++ raw_password)%string).

(** [user_in.password] *)
Definition getattr_str (obj : dict value) (attr : string) : M string :=
  match get obj attr with
  | Some (VStr s) => ret s
  | Some _ => raise (TypeError (attr ++ " is not a str")%string)
  | None => raise (AttributeError attr)
  end.

Definition fake_save_user (user_in : dict value) : M (dict value) :=
  call "fake_save_user"
    (password <- getattr_str user_in "password" ;;
     hashed_password <- fake_password_hasher password ;;
     user_in_db <- lift (model_validate UserInDB
                           (user_in ++ [("hashed_password", VStr hashed_password)])) ;;
     print "User saved! ..not really" ;;
     ret user_in_db).

(** [create_user] of line 565 *)
Definition create_user_l565 (user_in : dict value) : M (dict value) :=
  call "create_user"
    (user_saved <- fake_save_user user_in ;;
     ret user_saved).

(** *** The routes, each with its binding and its response contract *)

(** No handler is registered with [@app.exception_handler] in this module. *)
Definition exception_handlers (e : exn) : option response := None.

Definition default_to {A} (d : A) (o : option A) : A :=
  match o with Some a => a | None => d end.

Definition GET_items (skip limit : option Z) : exchange :=
  finish exception_handlers 200
    (read_items (default_to 0%Z skip) (default_to 10%Z limit)).

Definition GET_items8 (draw : nat) (ids : option string) : exchange :=
  finish exception_handlers 200
    (ids <- after_validator "ids" check_valid_id ids ;;
     read_items8 draw ids).

Definition POST_user_l517 (body : dict value) : exchange :=
  finish exception_handlers 200
    (user <- bind_body UserIn body ;;
     returned <- create_user_l517 user ;;
     serialize_response UserOut None [] returned).

Definition POST_user_l565 (body : dict value) : exchange :=
  finish exception_handlers 200
    (user_in <- bind_body UserIn body ;;
     returned <- create_user_l565 user_in ;;
     serialize_response UserOut None [] returned).

Definition GET_portal_l523 (teleport : option bool) : exchange :=
  finish_response exception_handlers
    (get_portal_l523 (default_to false teleport)).

(** [response_model=None]: a returned dict is sent as it is. *)
Definition GET_portal_l532 (teleport : option bool) : exchange :=
  finish_response exception_handlers
    (returned <- get_portal_l532 (default_to false teleport) ;;
     match returned with
     | inl r => ret r
     | inr v => ret (mkResponse 200 (JSON v))
     end).

Definition GET_items_name (item_id : string) : exchange :=
  finish exception_handlers 200
    (returned <- read_item_name item_id ;;
     serialize_response Item (Some ["name"; "description"]) [] returned).

Definition GET_items_public (item_id : string) : exchange :=
  finish exception_handlers 200
    (returned <- read_item_public_data item_id ;;
     serialize_response Item None ["tax"] returned).

(** *** Further endpoints *)

Definition hello_name (name : string) : M value :=
  call "hello_name" (ret (VDict [("message", VStr ("Hello " ++ name))])).

Definition long_description : string :=
  "This is an amazing item that has a long description".

Definition read_user_item (user_id : Z) (item_id : string)
    (q : option string) (short : bool) : M value :=
  call "read_user_item"
    (let item := [("item_id", VStr item_id); ("owner_id", VInt user_id)] in
     let item := if truthy q then update item [("q", opt_str q)] else item in
     let item :=
       if negb short
       then update item [("description", VStr long_description)]
       else item in
     ret (VDict item)).

Definition read_file (file_path : string) : M value :=
  call "read_file" (ret (VDict [("file_path", VStr file_path)])).

(** [a + b] on two floats is the machine's addition, [float_add]; on
    anything else the handlers below never reach it. *)
Variable float_add : Z * Z -> Z * Z -> Z * Z.

Definition add (a b : value) : M value :=
  match a, b with
  | VFloat m e, VFloat m' e' =>
      let (m'', e'') := float_add (m, e) (m', e') in ret (VFloat m'' e'')
  | _, _ => raise (TypeError "unsupported operand type(s) for +")
  end.

(** [obj.attr] on a model instance *)
Definition getattr (obj : dict value) (attr : string) : M value :=
  match get obj attr with
  | Some v => ret v
  | None => raise (AttributeError attr)
  end.

Definition is_none (v : value) : bool :=
  match v with VNone => true | _ => false end.

Definition create_item (item : dict value) : M value :=
  call "create_item"
    (let item_dict := item in
     tax <- getattr item "tax" ;;
     if negb (is_none tax)
     then
       price <- getattr item "price" ;;
       price_with_tax <- add price tax ;;
       ret (VDict (update item_dict [("price_with_tax", price_with_tax)]))
     else ret (VDict item_dict)).

Definition update_item (item_id : Z) (item : dict value) (q : option string)
    : M value :=
  call "update_item"
    (let result := update [("item_id", VInt item_id)] item in
     let result :=
       if truthy q then update result [("q", opt_str q)] else result in
     ret (VDict result)).

Definition GET_hello_name (name : string) : exchange :=
  finish exception_handlers 200 (hello_name name).

Definition GET_files (file_path : string) : exchange :=
  finish exception_handlers 200 (read_file file_path).

(** The route for a [user_id] segment that reads as the int [user_id]. *)
Definition GET_users_items (user_id : Z) (item_id : string)
    (q : option string) (short : option bool) : exchange :=
  finish exception_handlers 200
    (read_user_item user_id item_id q (default_to false short)).

Definition POST_items (body : dict value) : exchange :=
  finish exception_handlers 200
    (item <- bind_body Item body ;;
     create_item item).

(** The route for an [item_id] segment that reads as the int [item_id]. *)
Definition PUT_items (item_id : Z) (body : dict value) (q : option string)
    : exchange :=
  finish exception_handlers 200
    (item <- bind_body Item body ;;
     update_item item_id item q).

End Models.

(** *** The routing table, in the order of the decorators *)

(** The endpoints by name; a name defined more than once carries the line
    of its [def]. *)
Module Name.
Inductive endpoint : Type :=
| root | hello | hello_name | read_user_item | read_items | read_item13
| read_items2 | read_items3 | read_items4 | read_items5 | get_model
| read_file | create_item | read_items6 | read_items7 | read_items8
| read_items9 | read_items10 | read_items11 | read_items12
| update_item1 | update_item | update_item3 | update_item4 | update_item5
| update_item6 | update_item7 | update_item8 | update_items9
| cookie_items | header_items | cookie_items2 | headers_items
| fine_items_l501 | fine_items_l510
| create_user_l517 | get_portal_l523 | get_portal_l532
| read_item_name | read_item_public_data | create_user_l565.
End Name.

Definition read_item13_path : string :=
  match Routers.routers "users", Routers.routers "item_id" with
  | Some users, Some item_id => users ++ item_id
  | _, _ => ""
  end.

Definition routes : list (route Name.endpoint) :=
  [mkRoute "GET" "/" Name.root;
   mkRoute "GET" "/hello" Name.hello;
   mkRoute "GET" "/hello/{name}" Name.hello_name;
   mkRoute "GET" "/users/{user_id}/items/{item_id}" Name.read_user_item;
   mkRoute "GET" "/items/" Name.read_items;
   mkRoute "GET" read_item13_path Name.read_item13;
   mkRoute "GET" "/items2/" Name.read_items2;
   mkRoute "GET" "/items3/" Name.read_items3;
   mkRoute "GET" "/items4/" Name.read_items4;
   mkRoute "GET" "/items5/" Name.read_items5;
   mkRoute "GET" "/models/{model_name}" Name.get_model;
   mkRoute "GET" "/files/{file_path:path}" Name.read_file;
   mkRoute "POST" "/items/" Name.create_item;
   mkRoute "GET" "/items6/" Name.read_items6;
   mkRoute "GET" "/items7/" Name.read_items7;
   mkRoute "GET" "/items8/" Name.read_items8;
   mkRoute "GET" "/items9/{item_id}" Name.read_items9;
   mkRoute "GET" "/items10/{item_id}" Name.read_items10;
   mkRoute "GET" "/items11/{item_id}" Name.read_items11;
   mkRoute "GET" "/items12/" Name.read_items12;
   mkRoute "PUT" "/items1/{item_id}" Name.update_item1;
   mkRoute "PUT" "/items/{item_id}" Name.update_item;
   mkRoute "PUT" "/items3/{item_id}" Name.update_item3;
   mkRoute "PUT" "/items4/{item_id}" Name.update_item4;
   mkRoute "PUT" "/items5/{item_id}" Name.update_item5;
   mkRoute "PUT" "/items6/{item_id}" Name.update_item6;
   mkRoute "PUT" "/items7/{item_id}" Name.update_item7;
   mkRoute "PUT" "/items8/{item_id}" Name.update_item8;
   mkRoute "PUT" "/items9/{item_id}" Name.update_items9;
   mkRoute "GET" "/items/" Name.cookie_items;
   mkRoute "GET" "/items/" Name.header_items;
   mkRoute "GET" "/items2/" Name.cookie_items2;
   mkRoute "GET" "/items2/" Name.headers_items;
   mkRoute "GET" "/items15/" Name.fine_items_l501;
   mkRoute "GET" "/items16/" Name.fine_items_l510;
   mkRoute "POST" "/user/" Name.create_user_l517;
   mkRoute "GET" "/portal" Name.get_portal_l523;
   mkRoute "GET" "/portal" Name.get_portal_l532;
   mkRoute "GET" "/items/{item_id}/name" Name.read_item_name;
   mkRoute "GET" "/items/{item_id}/public" Name.read_item_public_data;
   mkRoute "POST" "/user/" Name.create_user_l565].

End Api.

(* ===================================================================== *)
(** ** [test_app/users.py]: the user and error-handling module *)
(* ===================================================================== *)
Module Users.
Import Py Framework.
Local Open Scope run_scope.

Section Models.

Variable EmailStr : value -> option value.

(** [str(exc)] of a request-validation error, Python's printing of its
    list of errors. *)
Variable str_of_errors : list error_details -> string.

Definition UserBase : model :=
  [mkField "username" str None;
   mkField "email" EmailStr None;
   mkField "full_name" (optional str) (Some VNone)].

(** A subclass adds its fields after those of its base. *)
Definition UserIn : model := UserBase ++ [mkField "password" str None].

Definition UserOut : model := UserBase.

Definition UserInDB : model :=
  UserBase ++ [mkField "hashed_password" str None].

Definition fake_password_hasher (raw_password : string) : M string :=
  call "fake_password_hasher" (ret ("supersecret" ++ raw_password)%string).

Definition getattr_str (obj : dict value) (attr : string) : M string :=
  match get obj attr with
  | Some (VStr s) => ret s
  | Some _ => raise (TypeError (attr ++ " is not a str")%string)
  | None => raise (AttributeError attr)
  end.

Definition fake_save_user (user_in : dict value) : M (dict value) :=
  call "fake_save_user"
    (password <- getattr_str user_in "password" ;;
     hashed_password <- fake_password_hasher password ;;
     user_in_db <- lift (model_validate UserInDB
                           (user_in ++ [("hashed_password", VStr hashed_password)])) ;;
     print "User saved! ..not really" ;;
     ret user_in_db).

Definition items : dict (dict value) :=
  [("item1", [("description", VStr "All my friends drive a low rider");
              ("type", VStr "car")]);
   ("item2", [("description", VStr "Music is my aeroplane, it's my aeroplane");
              ("type", VStr "plane");
              ("size", VInt 5)])].

Definition items2 : dict string := [("foo", "The Foo Wrestlers")].

(** [read_item] of line 78 *)
Definition read_item_l78 (item_id : string) : M value :=
  call "read_item"
    (if negb (contains items2 item_id)
     then raise (HTTPException 404 "Item not found")
     else
       item <- lift (getitem items2 item_id) ;;
       ret (VDict [("item", VStr item)])).

(** [read_item] of line 86 *)
Definition read_item_l86 (item_id : string) : M (dict value) :=
  call "read_item" (lift (getitem items item_id)).

Definition create_user (user_in : dict value) : M (dict value) :=
  call "create_user"
    (user_saved <- fake_save_user user_in ;;
     ret user_saved).

Definition unicorn_exception_handler (name : string) : response :=
  mkResponse 418
    (JSON (VDict [("message",
                   VStr ("Oops! " ++ name
                         ++ " did something. There goes a rainbow..."))])).

Definition read_unicorn (name : string) : M value :=
  call "read_unicorn"
    (if String.eqb name "yolo"
     then raise (UnicornException name)
     else ret (VDict [("unicorn_name", VStr name)])).

Definition http_exception_handler (status : Z) (detail : string) : response :=
  mkResponse status (PlainText detail).

Definition validation_exception_handler (errors : list error_details)
    : response :=
  mkResponse 400 (PlainText (str_of_errors errors)).

(** [read_item] of line 183 *)
Definition read_item_l183 (item_id : Z) : M value :=
  call "read_item"
    (if (item_id =? 3)%Z
     then raise (HTTPException 418 "Nope! I don't like 3.")
     else ret (VDict [("item_id", VInt item_id)])).

(** The handlers registered with [@app.exception_handler]. *)
Definition exception_handlers (e : exn) : option response :=
  match e with
  | UnicornException name => Some (unicorn_exception_handler name)
  | HTTPException status detail => Some (http_exception_handler status detail)
  | RequestValidationError errors => Some (validation_exception_handler errors)
  | _ => None
  end.

(** *** The routes *)

Definition GET_items_l78 (item_id : string) : exchange :=
  finish exception_handlers 200 (read_item_l78 item_id).

(** The route of line 183 for a path segment that reads as the int
    [item_id]. *)
Definition GET_items_l183 (item_id : Z) : exchange :=
  finish exception_handlers 200 (read_item_l183 item_id).

Definition POST_user (body : dict value) : exchange :=
  finish exception_handlers 200
    (user_in <- bind_body UserIn body ;;
     returned <- create_user user_in ;;
     serialize_response UserOut None [] returned).

Definition GET_unicorns (name : string) : exchange :=
  finish exception_handlers 200 (read_unicorn name).

(** *** [GET /items-header/{item_id}] *)

(** [read_item_header]: its outcome and, beside it, the [headers] its
    [HTTPException] is raised with. *)
Definition read_item_header (item_id : string) : M value * dict string :=
  if negb (contains items item_id)
  then (call "read_item_header" (raise (HTTPException 404 "Item not found")),
        [("X-Error", "There goes my error")])
  else (call "read_item_header"
          (item <- lift (getitem items item_id) ;;
           ret (VDict [("item", VDict item)])),
        []).

(** [http_exception_handler] builds its [PlainTextResponse] from the
    detail and the status code of the exception and from nothing else. *)
Definition http_exception_handler_headed (status : Z) (detail : string)
    (headers : dict string) : headed_response :=
  mkHeaded (http_exception_handler status detail) [].

Definition GET_items_header (item_id : string)
    : list event * headed_response :=
  let (m, headers) := read_item_header item_id in
  (fst m,
   match snd m with
   | Return v => mkHeaded (mkResponse 200 (JSON v)) []
   | Raise (HTTPException status detail) =>
       http_exception_handler_headed status detail headers
   | Raise e => mkHeaded (render exception_handlers e) []
   end).

End Models.

Module Name.
Inductive endpoint : Type :=
| read_item_l78 | read_item_l86 | create_user | read_keyword_weights
| login | login2 | create_files | create_upload_files | main
| read_item_header | read_unicorn | read_item_l183.
End Name.

Definition routes : list (route Name.endpoint) :=
  [mkRoute "GET" "/items/{item_id}" Name.read_item_l78;
   mkRoute "GET" "/items/{item_id}" Name.read_item_l86;
   mkRoute "POST" "/user/" Name.create_user;
   mkRoute "GET" "/keyword-weights/" Name.read_keyword_weights;
   mkRoute "POST" "/login/" Name.login;
   mkRoute "POST" "/login2/" Name.login2;
   mkRoute "POST" "/files/" Name.create_files;
   mkRoute "POST" "/uploadfiles/" Name.create_upload_files;
   mkRoute "GET" "/" Name.main;
   mkRoute "GET" "/items-header/{item_id}" Name.read_item_header;
   mkRoute "GET" "/unicorns/{name}" Name.read_unicorn;
   mkRoute "GET" "/items/{item_id}" Name.read_item_l183].

End Users.

(* ===================================================================== *)
(** ** [test_app/dependencies.py]: the dependency-injection module *)
(* ===================================================================== *)
Module Dependencies.
Import Py Framework.
Local Open Scope run_scope.

Definition fake_items_db : list value :=
  [VDict [("item_name", VStr "Foo")];
   VDict [("item_name", VStr "Bar")];
   VDict [("item_name", VStr "Baz")]].

Record CommonQueryParams : Type := mkCommons {
  q : option string;
  skip : Z;
  limit : Z
}.

Definition verify_token (x_token : string) : M unit :=
  call "verify_token"
    (if negb (String.eqb x_token "fake-super-secret-token")
     then raise (HTTPException 400 "X-Token header invalid")
     else ret tt).

Definition verify_key (x_key : string) : M string :=
  call "verify_key"
    (if negb (String.eqb x_key "fake-super-secret-key")
     then raise (HTTPException 400 "X-Key header invalid")
     else ret x_key).

(** [read_items] of line 38 *)
Definition read_items_l38 (commons : CommonQueryParams) : M value :=
  call "read_items"
    (let response :=
       if truthy (q commons)
       then match q commons with
            | Some text => [("q", VStr text)]
            | None => []
            end
       else [] in
     let items :=
       slice fake_items_db (skip commons) (skip commons + limit commons) in
     ret (VDict (response ++ [("items", VList items)]))).

(** [read_items] of line 86, behind the two header gates *)
Definition read_items_l86 : M value :=
  call "read_items"
    (ret (VList [VDict [("item", VStr "Foo")]; VDict [("item", VStr "Bar")]])).

Definition data : dict (dict value) :=
  [("plumbus", [("description", VStr "Freshly pickled plumbus");
                ("owner", VStr "Morty")]);
   ("portal-gun", [("description", VStr "Gun to create portals");
                   ("owner", VStr "Rick")])].

(** [get_username]: yields ["Rick"]; an [OwnerError] thrown in at the
    [yield] is caught and an [HTTPException] raised from its text, any
    other exception passes through. *)
Definition get_username : yield_dependency string :=
  mkYield "Rick"
    (fun e =>
       match e with
       | OwnerError payload =>
           HTTPException 400 ("Owner error: " ++ payload)
       | _ => e
       end).

Definition value_eqb_str (v : value) (s : string) : bool :=
  match v with
  | VStr t => String.eqb t s
  | _ => false
  end.

Definition get_item (item_id username : string) : M (dict value) :=
  call "get_item"
    (if negb (contains data item_id)
     then raise (HTTPException 404 "Item not found")
     else
       item <- lift (getitem data item_id) ;;
       owner <- lift (getitem item "owner") ;;
       if negb (value_eqb_str owner username)
       then raise (OwnerError username)
       else ret item).

(** *** The routes *)

Definition exception_handlers (e : exn) : option response := None.

(** A dependency with a required header parameter: without the header
    the dependency is not called and the request is marked invalid. *)
Definition solve_header {A} (header : string) (supplied : option string)
    (dependency : string -> M A) : M (list error_details) :=
  match supplied with
  | None => ret [mkError ["header"; header] "Field required" VNone]
  | Some v => dependency v ;; ret []
  end.

(** [dependencies=[Depends(verify_token), Depends(verify_key)]]: solved in
    that order before the endpoint; what they return is dropped. *)
Definition GET_items_l86 (x_token x_key : option string) : exchange :=
  finish exception_handlers 200
    (e1 <- solve_header "x-token" x_token verify_token ;;
     e2 <- solve_header "x-key" x_key verify_key ;;
     match e1 ++ e2 with
     | [] => read_items_l86
     | errors => raise (RequestValidationError errors)
     end).

Definition GET_item (item_id : string) : exchange :=
  finish exception_handlers 200
    (with_yield "get_username" get_username
       (fun username =>
          item <- get_item item_id username ;;
          ret (VDict item))).

(** *** The providers of query values and their routes *)

Definition common_parameters (q : option string) (skip limit : Z) : M value :=
  call "common_parameters"
    (ret (VDict [("q", match q with Some s => VStr s | None => VNone end);
                 ("skip", VInt skip);
                 ("limit", VInt limit)])).

Definition read_users (commons : value) : M value :=
  call "read_users" (ret commons).

Definition query_extractor (q : option string) : M (option string) :=
  call "query_extractor" (ret q).

Definition query_or_cookie_extractor (q last_query : option string)
    : M (option string) :=
  call "query_or_cookie_extractor"
    (if negb (truthy q) then ret last_query else ret q).

Definition read_query (query_or_default : option string) : M value :=
  call "read_query"
    (ret (VDict [("q_or_cookie",
                  match query_or_default with
                  | Some s => VStr s
                  | None => VNone
                  end)])).

Definition default_to {A} (d : A) (o : option A) : A :=
  match o with Some a => a | None => d end.

(** [Depends(CommonQueryParams)]: the class is called with the query
    values, absent ones at their defaults. *)
Definition GET_items_l38 (q : option string) (skip limit : option Z)
    : exchange :=
  finish exception_handlers 200
    (commons <- call "CommonQueryParams"
                  (ret (mkCommons q (default_to 0%Z skip)
                                  (default_to 100%Z limit))) ;;
     read_items_l38 commons).

Definition GET_users (q : option string) (skip limit : option Z)
    : exchange :=
  finish exception_handlers 200
    (commons <- common_parameters q (default_to 0%Z skip)
                                  (default_to 100%Z limit) ;;
     read_users commons).

(** The route of [read_query]: [query_extractor] is solved first, then
    [query_or_cookie_extractor] with its result and the cookie. *)
Definition GET_items_read_query (q last_query : option string) : exchange :=
  finish exception_handlers 200
    (extracted <- query_extractor q ;;
     query_or_default <- query_or_cookie_extractor extracted last_query ;;
     read_query query_or_default).

Module Name.
Inductive endpoint : Type :=
| read_items_l38 | read_items_l49 | read_users | read_query
| read_items_l86 | get_item.
End Name.

Definition routes : list (route Name.endpoint) :=
  [mkRoute "GET" "/items/" Name.read_items_l38;
   mkRoute "GET" "/items/" Name.read_items_l49;
   mkRoute "GET" "/users/" Name.read_users;
   mkRoute "GET" "/items/" Name.read_query;
   mkRoute "GET" "/items/" Name.read_items_l86;
   mkRoute "GET" "/items/{item_id}" Name.get_item].

End Dependencies.

(* ===================================================================== *)
(** ** Sample requests *)
(* ===================================================================== *)
Module Samples.
Import Py Framework.

(** A stand-in for the library check behind [EmailStr]: a string with an
    [@] is accepted as it is. *)
Definition EmailStr (v : value) : option value :=
  match v with
  | VStr s =>
      if existsb (Ascii.eqb "@"%char) (list_ascii_of_string s)
      then Some v else None
  | _ => None
  end.

(** A stand-in for the check behind [HttpUrl]. *)
Definition HttpUrl (v : value) : option value :=
  match v with
  | VStr s =>
      if String.prefix "http://" s || String.prefix "https://" s
      then Some v else None
  | _ => None
  end.

Definition str_of_errors (errors : list error_details) : string :=
  String.concat "; " (map msg errors).

Definition user_body : dict value :=
  [("username", VStr "rick");
   ("password", VStr "wubba");
   ("email", VStr "rick@example.com")].

(** 2024-01-01T00:00:00 is 738885 days after 0001-01-01. *)
Definition new_year_2024 : Z := 738885 * us_per_day.

Definition us_per_hour : Z := 3600 * 1000000.

End Samples.

(* ===================================================================== *)
(** * Properties *)
(* ===================================================================== *)

Import Py Framework.

(** ** Lists and slices *)

Lemma slice_index_range (len i : Z) :
  (0 <= len)%Z -> (0 <= slice_index len i <= len)%Z.
Proof. intros H. unfold slice_index. destruct (Z.ltb_spec i 0); lia. Qed.

(** The element at position [k] of a slice, from its two bounds. *)
Lemma nth_error_slice_bounds {A} (l : list A) (start stop : Z) (k : nat) :
  nth_error (slice l start stop) k =
  if (slice_index (Z.of_nat (length l)) start + Z.of_nat k
      <? slice_index (Z.of_nat (length l)) stop)%Z
  then nth_error l (Z.to_nat (slice_index (Z.of_nat (length l)) start) + k)
  else None.
Proof.
  unfold slice. set (len := Z.of_nat (length l)).
  pose proof (slice_index_range len start (Nat2Z.is_nonneg _)) as Hlo.
  pose proof (slice_index_range len stop (Nat2Z.is_nonneg _)) as Hhi.
  rewrite nth_error_firstn, nth_error_skipn.
  destruct (k <? Z.to_nat (slice_index len stop - slice_index len start))%nat
    eqn:E.
  - apply Nat.ltb_lt in E.
    assert (Hlt : (slice_index len start + Z.of_nat k
                   < slice_index len stop)%Z) by lia.
    apply Z.ltb_lt in Hlt. rewrite Hlt. reflexivity.
  - apply Nat.ltb_ge in E.
    assert (Hge : (slice_index len stop
                   <= slice_index len start + Z.of_nat k)%Z) by lia.
    apply Z.ltb_ge in Hge. rewrite Hge. reflexivity.
Qed.

Lemma nth_error_slice {A} (l : list A) (start stop : Z) (k : nat) :
  (0 <= start)%Z -> (0 <= stop)%Z ->
  nth_error (slice l start stop) k =
  if (start + Z.of_nat k <? stop)%Z
  then nth_error l (Z.to_nat start + k)
  else None.
Proof.
  intros Hs Ht. unfold slice, slice_index.
  destruct (start <? 0)%Z eqn:E1; [apply Z.ltb_lt in E1; lia|].
  destruct (stop <? 0)%Z eqn:E2; [apply Z.ltb_lt in E2; lia|].
  rewrite nth_error_firstn, nth_error_skipn.
  set (len := Z.of_nat (length l)).
  destruct (k <? Z.to_nat (Z.min stop len - Z.min start len))%nat eqn:E3.
  - apply Nat.ltb_lt in E3.
    assert (Hlt : (start + Z.of_nat k < stop)%Z) by lia.
    apply Z.ltb_lt in Hlt. rewrite Hlt.
    f_equal. lia.
  - apply Nat.ltb_ge in E3.
    destruct (start + Z.of_nat k <? stop)%Z eqn:E4; [|reflexivity].
    apply Z.ltb_lt in E4.
    assert (Hout : (length l <= Z.to_nat start + k)%nat) by lia.
    apply nth_error_None in Hout. rewrite Hout. reflexivity.
Qed.

(** ** Paths *)

Lemma split_slash_nonempty (s : string) : split_slash s <> [].
Proof.
  destruct s as [|c s]; simpl; [discriminate|].
  destruct (Ascii.eqb c slash); [discriminate|].
  destruct (split_slash s); discriminate.
Qed.

Lemma split_slash_segment (s : string) :
  has_slash s = false -> split_slash s = [s].
Proof.
  induction s as [|c s IH]; simpl; intros H; [reflexivity|].
  apply orb_false_iff in H. destruct H as [Hc Hs].
  rewrite Hc, (IH Hs). reflexivity.
Qed.

Lemma append_empty_r (s : string) : (s ++ "")%string = s.
Proof. induction s as [|c s IH]; simpl; [|rewrite IH]; reflexivity. Qed.

(** Splitting a concatenation: the last segment of the first part and the
    first segment of the second are one segment. *)
Lemma split_slash_append (a b : string) :
  split_slash (a ++ b) =
  removelast (split_slash a)
  ++ (last (split_slash a) EmptyString ++ hd EmptyString (split_slash b))%string
     :: tl (split_slash b).
Proof.
  induction a as [|c a IH].
  - simpl. pose proof (split_slash_nonempty b) as Hne.
    destruct (split_slash b); [contradiction|]. reflexivity.
  - cbn [String.append split_slash].
    pose proof (split_slash_nonempty a) as Hne.
    destruct (Ascii.eqb c slash); rewrite IH.
    + destruct (split_slash a) as [|h t]; [contradiction|]. reflexivity.
    + destruct (split_slash a) as [|h t]; [contradiction|].
      destruct t as [|h' t']; reflexivity.
Qed.

Lemma split_slash_app (a b : string) :
  has_slash b = false ->
  split_slash (a ++ b) =
  removelast (split_slash a) ++ [(last (split_slash a) EmptyString ++ b)%string].
Proof.
  intros Hb. rewrite split_slash_append, (split_slash_segment b Hb).
  reflexivity.
Qed.

(** ** The router takes the first full match *)

Lemma scan_first_full {E} (routes : list (route E)) :
  forall partial m p e params,
    scan routes partial m p = Some (Matched e params) ->
    exists before r after,
      routes = before ++ r :: after /\
      endpoint r = e /\
      matches r m p = FULL params /\
      Forall (fun r' => forall params', matches r' m p <> FULL params') before.
Proof.
  induction routes as [|r routes IH]; intros partial m p e params H.
  - simpl in H. destruct partial; discriminate.
  - simpl in H. destruct (matches r m p) eqn:Hr.
    + apply IH in H. destruct H as (before & r0 & after & -> & He & Hm & Hb).
      exists (r :: before), r0, after. repeat split; auto.
      constructor; [intros ? ?; congruence | exact Hb].
    + apply IH in H. destruct H as (before & r0 & after & -> & He & Hm & Hb).
      exists (r :: before), r0, after. repeat split; auto.
      constructor; [intros ? ?; congruence | exact Hb].
    + injection H as <- <-.
      exists [], r, routes. repeat split; auto.
Qed.

Lemma dispatch_first_full {E} (routes : list (route E)) m p e params :
  dispatch routes m p = Matched e params ->
  exists before r after,
    routes = before ++ r :: after /\
    endpoint r = e /\
    matches r m p = FULL params /\
    Forall (fun r' => forall params', matches r' m p <> FULL params') before.
Proof.
  unfold dispatch. intros H.
  destruct (scan routes None m p) as [d|] eqn:Hs.
  - subst d. eapply scan_first_full; eauto.
  - destruct (String.eqb p "/"); [discriminate|].
    match type of H with (if ?c then _ else _) = _ => destruct c end;
      discriminate.
Qed.

(** Conversely, a route that matches fully and has no full match before it
    is the one that is served. *)
Lemma scan_full_here {E} (before : list (route E)) r after m p params :
  Forall (fun r' => forall params', matches r' m p <> FULL params') before ->
  matches r m p = FULL params ->
  forall partial,
    scan (before ++ r :: after) partial m p = Some (Matched (endpoint r) params).
Proof.
  intros Hb Hr. induction Hb as [|r' before Hr' Hb IH]; intros partial.
  - simpl. rewrite Hr. reflexivity.
  - simpl. destruct (matches r' m p) eqn:E'.
    + apply IH.
    + apply IH.
    + exfalso. eapply Hr'. reflexivity.
Qed.

(** The route at position [n] is served when it matches fully and none of
    the [n] routes before it does. *)
Lemma dispatch_nth {E} (routes : list (route E)) (n : nat) r e m p params :
  nth_error routes n = Some r ->
  endpoint r = e ->
  Forall (fun r' => forall params', matches r' m p <> FULL params')
         (firstn n routes) ->
  matches r m p = FULL params ->
  dispatch routes m p = Matched e params.
Proof.
  intros Hn <- Hb Hr. unfold dispatch.
  rewrite <- (firstn_skipn_middle n routes Hn).
  rewrite (scan_full_here _ r _ m p params Hb Hr). reflexivity.
Qed.

(** [route_match Hsplit] exposes the match of one route on the path whose
    segments [Hsplit] gives. *)
Ltac route_match Hsplit :=
  unfold matches, path_match; cbn [path method endpoint]; rewrite Hsplit.

(** [dispatch_at n Hsplit]: the route at position [n] of a table written
    out serves that path. *)
Ltac dispatch_at n Hsplit :=
  eapply (dispatch_nth _ n);
  [ reflexivity
  | reflexivity
  | cbv delta [Api.routes Users.routes Dependencies.routes]; cbn [firstn];
    repeat constructor; intros ?; route_match Hsplit;
    vm_compute; discriminate
  | route_match Hsplit; reflexivity ].

(** From [routes = before ++ r :: after] with [routes] written out, find
    which route [r] is: every position but those whose endpoint agrees
    with [He] is discarded. *)
Ltac locate_route before Heq He :=
  repeat (destruct before as [|? before];
          [ injection Heq as ? ?; subst; try discriminate He
          | injection Heq as ? Heq; subst ]);
  try (destruct before; discriminate Heq).

(** An earlier route of the same method and path, taken from the [Forall]
    over the routes before the one found, contradicts the full match. *)
Ltac shadowed_by r1 Hb Hm :=
  exfalso; rewrite Forall_forall in Hb;
  refine (Hb r1 _ _ Hm); simpl; tauto.

(** ** The core service: [GET /items/] *)

(** C5: [GET /items/] of the core service is served by [read_items] and
    returns the fixture sliced as [fake_items_db[skip:limit]], [limit]
    being the exclusive upper index and not a count: the element at
    position [k] of the result is the fixture's element [lo + k] as long
    as [lo + k < hi], for the two bounds [lo], [hi] of the slice, which
    for [skip] and [limit] not below zero means the element [skip + k] as
    long as [skip + k < limit]; with [skip=1, limit=2] the result is the
    single element [fake_items_db[1:2]], and with the defaults ([skip=0],
    [limit=10]) the whole fixture of three. *)
Theorem read_items_slice_by_index (skip limit : Z) :
  dispatch Api.routes "GET" "/items/" = Matched Api.Name.read_items [] /\
  reply (Api.GET_items (Some skip) (Some limit))
    = mkResponse 200 (JSON (VList (slice Api.fake_items_db skip limit))) /\
  (forall k : nat,
     nth_error (slice Api.fake_items_db skip limit) k =
     if (slice_index 3 skip + Z.of_nat k <? slice_index 3 limit)%Z
     then nth_error Api.fake_items_db (Z.to_nat (slice_index 3 skip) + k)
     else None) /\
  ((0 <= skip)%Z -> (0 <= limit)%Z ->
   forall k : nat,
     nth_error (slice Api.fake_items_db skip limit) k =
     if (skip + Z.of_nat k <? limit)%Z
     then nth_error Api.fake_items_db (Z.to_nat skip + k)
     else None) /\
  reply (Api.GET_items (Some 1%Z) (Some 2%Z))
    = mkResponse 200 (JSON (VList [VDict [("item_name", VStr "Bar")]])) /\
  length (slice Api.fake_items_db 1 2) = 1%nat /\
  reply (Api.GET_items None None)
    = mkResponse 200 (JSON (VList Api.fake_items_db)) /\
  length Api.fake_items_db = 3%nat.
Proof.
  split; [reflexivity|].
  split; [reflexivity|].
  split; [intros k; apply (nth_error_slice_bounds Api.fake_items_db)|].
  split; [intros Hskip Hlimit k; apply nth_error_slice; assumption|].
  repeat split; reflexivity.
Qed.

(** ** Routes declared more than once *)

Lemma users_items_path (item_id : string) :
  path_segment item_id ->
  split_slash ("/items/" ++ item_id) = [""; "items"; item_id].
Proof.
  intros [_ Hs]. rewrite (split_slash_app "/items/" item_id Hs). reflexivity.
Qed.

Lemma users_get_items_dispatch (item_id : string) :
  path_segment item_id ->
  dispatch Users.routes "GET" ("/items/" ++ item_id)
  = Matched Users.Name.read_item_l78 [("item_id", item_id)].
Proof.
  intros Hseg. pose proof (users_items_path item_id Hseg) as Hsplit.
  destruct Hseg as [Hne _].
  destruct item_id as [|c s]; [contradiction|].
  dispatch_at 0%nat Hsplit.
Qed.

Lemma users_shadowed_unreachable (m p : string) (params : dict string) :
  dispatch Users.routes m p <> Matched Users.Name.read_item_l86 params /\
  dispatch Users.routes m p <> Matched Users.Name.read_item_l183 params.
Proof.
  split; intros H; apply dispatch_first_full in H;
    destruct H as (before & r & after & Heq & He & Hm & Hb);
    unfold Users.routes in Heq; locate_route before Heq He;
    shadowed_by (mkRoute "GET" "/items/{item_id}" Users.Name.read_item_l78)
                Hb Hm.
Qed.

Lemma api_shadowed_unreachable (m p : string) (params : dict string) :
  dispatch Api.routes m p <> Matched Api.Name.get_portal_l532 params /\
  dispatch Api.routes m p <> Matched Api.Name.create_user_l565 params.
Proof.
  split; intros H; apply dispatch_first_full in H;
    destruct H as (before & r & after & Heq & He & Hm & Hb);
    unfold Api.routes in Heq; locate_route before Heq He.
  - shadowed_by (mkRoute "GET" "/portal" Api.Name.get_portal_l523) Hb Hm.
  - shadowed_by (mkRoute "POST" "/user/" Api.Name.create_user_l517) Hb Hm.
Qed.

(** C2 as stated does not hold: [GET /items/3] of the user module is not
    served by the last [read_item] (line 183, which would answer 418
    "Nope! I don't like 3.") but by the first one (line 78), which answers
    404 "Item not found". *)
Lemma last_registered_read_item_not_served :
  dispatch Users.routes "GET" "/items/3"
    <> Matched Users.Name.read_item_l183 [("item_id", "3")] /\
  dispatch Users.routes "GET" "/items/3"
    = Matched Users.Name.read_item_l78 [("item_id", "3")] /\
  reply (Users.GET_items_l78 Samples.str_of_errors "3")
    = mkResponse 404 (PlainText "Item not found") /\
  reply (Users.GET_items_l183 Samples.str_of_errors 3)
    = mkResponse 418 (PlainText "Nope! I don't like 3.") /\
  reply (Users.GET_items_l78 Samples.str_of_errors "3")
    <> reply (Users.GET_items_l183 Samples.str_of_errors 3).
Proof.
  split; [vm_compute; discriminate|].
  split; [reflexivity|].
  split; [reflexivity|].
  split; [reflexivity|].
  vm_compute; discriminate.
Qed.

(** C2, amended: of several routes declared for one method and path only
    the first registered is reachable.  Every [GET /items/{item_id}] of the
    user module is served by the first [read_item] (line 78): 404 "Item not
    found", as plain text, when [item_id] is no key of [items2], otherwise
    [{"item": items2[item_id]}]; the [read_item] of lines 86 and 183 are
    never served.  In the core service [GET /portal] and [POST /user/] are
    served by their first declarations (lines 523 and 517), never by the
    later ones (lines 532 and 565). *)
Theorem first_registered_handler_is_served
    (str_of_errors : list error_details -> string) (item_id : string) :
  path_segment item_id ->
  dispatch Users.routes "GET" ("/items/" ++ item_id)
    = Matched Users.Name.read_item_l78 [("item_id", item_id)] /\
  reply (Users.GET_items_l78 str_of_errors item_id)
    = match get Users.items2 item_id with
      | Some title => mkResponse 200 (JSON (VDict [("item", VStr title)]))
      | None => mkResponse 404 (PlainText "Item not found")
      end /\
  (forall m p params,
     dispatch Users.routes m p <> Matched Users.Name.read_item_l86 params /\
     dispatch Users.routes m p <> Matched Users.Name.read_item_l183 params) /\
  (forall m p params,
     dispatch Api.routes m p <> Matched Api.Name.get_portal_l532 params /\
     dispatch Api.routes m p <> Matched Api.Name.create_user_l565 params) /\
  dispatch Api.routes "GET" "/portal" = Matched Api.Name.get_portal_l523 [] /\
  dispatch Api.routes "POST" "/user/" = Matched Api.Name.create_user_l517 [].
Proof.
  intros Hseg.
  split; [apply users_get_items_dispatch, Hseg|].
  split.
  { unfold Users.GET_items_l78, Users.read_item_l78, finish, contains, getitem.
    destruct (get Users.items2 item_id) as [title|]; reflexivity. }
  split; [apply users_shadowed_unreachable|].
  split; [apply api_shadowed_unreachable|].
  split; reflexivity.
Qed.

Lemma first_registered_handler_is_served_witness :
  dispatch Users.routes "GET" ("/items/" ++ "foo")
    = Matched Users.Name.read_item_l78 [("item_id", "foo")] /\
  reply (Users.GET_items_l78 Samples.str_of_errors "foo")
    = match get Users.items2 "foo" with
      | Some title => mkResponse 200 (JSON (VDict [("item", VStr title)]))
      | None => mkResponse 404 (PlainText "Item not found")
      end /\
  (forall m p params,
     dispatch Users.routes m p <> Matched Users.Name.read_item_l86 params /\
     dispatch Users.routes m p <> Matched Users.Name.read_item_l183 params) /\
  (forall m p params,
     dispatch Api.routes m p <> Matched Api.Name.get_portal_l532 params /\
     dispatch Api.routes m p <> Matched Api.Name.create_user_l565 params) /\
  dispatch Api.routes "GET" "/portal" = Matched Api.Name.get_portal_l523 [] /\
  dispatch Api.routes "POST" "/user/" = Matched Api.Name.create_user_l517 [].
Proof.
  apply (first_registered_handler_is_served Samples.str_of_errors "foo").
  split; [discriminate | reflexivity].
Defined.

(** ** Account output: [POST /user/] *)

Lemma str_inv v v' : str v = Some v' -> exists s, v = VStr s /\ v' = VStr s.
Proof.
  destruct v; simpl; intros H; try discriminate. injection H as <-. eauto.
Qed.

Lemma optional_str_inv v v' :
  optional str v = Some v' -> v' = v /\ optional str v' = Some v'.
Proof.
  destruct v; simpl; intros H; try discriminate; injection H as <-; auto.
Qed.

(** A body that binds to the core service's [UserIn]: where its fields
    come from. *)
Lemma api_UserIn_inv (EmailStr : value -> option value) body user_in :
  model_validate (Api.UserIn EmailStr) body = Return user_in ->
  exists username password email0 email full_name,
    get body "username" = Some (VStr username) /\
    get body "password" = Some (VStr password) /\
    get body "email" = Some email0 /\ EmailStr email0 = Some email /\
    (get body "full_name" = Some full_name \/
     get body "full_name" = None /\ full_name = VNone) /\
    optional str full_name = Some full_name /\
    user_in = [("username", VStr username); ("password", VStr password);
               ("email", email); ("full_name", full_name)].
Proof.
  unfold Api.UserIn. simpl. unfold validate_field. simpl.
  intros H.
  destruct (get body "username") as [u|] eqn:Hu; simpl in H; [|discriminate].
  destruct (str u) as [u'|] eqn:Hu'; simpl in H; [|discriminate].
  apply str_inv in Hu'. destruct Hu' as (username & -> & ->).
  destruct (get body "password") as [pw|] eqn:Hp; simpl in H; [|discriminate].
  destruct (str pw) as [pw'|] eqn:Hp'; simpl in H; [|discriminate].
  apply str_inv in Hp'. destruct Hp' as (password & -> & ->).
  destruct (get body "email") as [e0|] eqn:He; simpl in H; [|discriminate].
  destruct (EmailStr e0) as [e|] eqn:He'; simpl in H; [|discriminate].
  destruct (get body "full_name") as [f0|] eqn:Hf; simpl in H.
  - destruct (optional str f0) as [f|] eqn:Hf'; simpl in H; [|discriminate].
    apply optional_str_inv in Hf'. destruct Hf' as [-> Hopt].
    injection H as <-.
    exists username, password, e0, e, f0. repeat split; auto.
  - injection H as <-.
    exists username, password, e0, e, VNone. repeat split; auto.
Qed.

(** The same body binds to the user module's [UserIn], whose fields come
    in the order of [UserBase] first. *)
Lemma users_UserIn_valid (EmailStr : value -> option value) body user_in :
  model_validate (Api.UserIn EmailStr) body = Return user_in ->
  exists username password email full_name,
    user_in = [("username", VStr username); ("password", VStr password);
               ("email", email); ("full_name", full_name)] /\
    optional str full_name = Some full_name /\
    model_validate (Users.UserIn EmailStr) body
    = Return [("username", VStr username); ("email", email);
              ("full_name", full_name); ("password", VStr password)].
Proof.
  intros H. apply api_UserIn_inv in H.
  destruct H as (username & password & e0 & email & full_name
                 & Hu & Hp & He & He' & Hf & Hopt & ->).
  exists username, password, email, full_name.
  split; [reflexivity|]. split; [exact Hopt|].
  unfold Users.UserIn, Users.UserBase. simpl. unfold validate_field. simpl.
  rewrite Hu, Hp, He. simpl. rewrite He'. simpl.
  destruct Hf as [Hf | [Hf ->]]; rewrite Hf; simpl.
  - rewrite Hopt. reflexivity.
  - reflexivity.
Qed.

(** C1: for every body that is a valid [UserIn] (the validated email being
    one that validates to itself again), [POST /user/] answers with the
    fields of [UserOut] only, [username], [email] and [full_name], taken
    from the input: this holds for both declarations in the core service
    (lines 517 and 565) and for the user module.  Neither [password] nor
    [hashed_password] is a field of the response, although
    [fake_save_user] builds a [UserInDB] whose [hashed_password] is
    ["supersecret"] followed by the password. *)
Theorem create_user_returns_only_UserOut_fields
    (EmailStr : value -> option value)
    (str_of_errors : list error_details -> string)
    (body user_in : dict value) :
  (forall v v', EmailStr v = Some v' -> EmailStr v' = Some v') ->
  model_validate (Api.UserIn EmailStr) body = Return user_in ->
  exists username password email full_name,
    user_in = [("username", VStr username); ("password", VStr password);
               ("email", email); ("full_name", full_name)] /\
    reply (Api.POST_user_l517 EmailStr body)
      = mkResponse 200 (JSON (VDict [("username", VStr username);
                                     ("email", email);
                                     ("full_name", full_name)])) /\
    reply (Api.POST_user_l565 EmailStr body)
      = mkResponse 200 (JSON (VDict [("username", VStr username);
                                     ("email", email);
                                     ("full_name", full_name)])) /\
    reply (Users.POST_user EmailStr str_of_errors body)
      = mkResponse 200 (JSON (VDict [("username", VStr username);
                                     ("email", email);
                                     ("full_name", full_name)])) /\
    body_fields (reply (Api.POST_user_l565 EmailStr body))
      = ["username"; "email"; "full_name"] /\
    body_fields (reply (Users.POST_user EmailStr str_of_errors body))
      = ["username"; "email"; "full_name"] /\
    ~ In "password" ["username"; "email"; "full_name"] /\
    ~ In "hashed_password" ["username"; "email"; "full_name"] /\
    snd (Api.fake_save_user EmailStr user_in)
      = Return [("username", VStr username);
                ("hashed_password", VStr ("supersecret" ++ password));
                ("email", email); ("full_name", full_name)] /\
    snd (Users.fake_save_user EmailStr
           [("username", VStr username); ("email", email);
            ("full_name", full_name); ("password", VStr password)])
      = Return [("username", VStr username); ("email", email);
                ("full_name", full_name);
                ("hashed_password", VStr ("supersecret" ++ password))].
Proof.
  intros Hidem H.
  pose proof (users_UserIn_valid EmailStr body user_in H) as HU.
  pose proof (api_UserIn_inv EmailStr body user_in H) as HA.
  destruct HA as (username & password & e0 & email & full_name
                  & _ & _ & _ & He' & _ & Hopt & Huser).
  destruct HU as (username' & password' & email' & full_name' & Huser' & _ & HU).
  rewrite Huser in Huser'. injection Huser' as <- <- <- <-.
  apply Hidem in He'.
  exists username, password, email, full_name.
  split; [exact Huser|].
  assert (H565 : reply (Api.POST_user_l565 EmailStr body)
      = mkResponse 200 (JSON (VDict [("username", VStr username);
                                     ("email", email);
                                     ("full_name", full_name)]))).
  { unfold Api.POST_user_l565, bind_body. rewrite H, Huser.
    unfold serialize_response, Api.UserOut, Api.create_user_l565,
      Api.fake_save_user, Api.UserInDB.
    simpl. unfold validate_field. simpl.
    rewrite He'. simpl. rewrite Hopt. simpl. rewrite He'. simpl.
    rewrite Hopt. reflexivity. }
  assert (HUsers : reply (Users.POST_user EmailStr str_of_errors body)
      = mkResponse 200 (JSON (VDict [("username", VStr username);
                                     ("email", email);
                                     ("full_name", full_name)]))).
  { unfold Users.POST_user, bind_body. rewrite HU.
    unfold serialize_response, Users.UserOut, Users.create_user,
      Users.fake_save_user, Users.UserInDB, Users.UserBase.
    simpl. unfold validate_field. simpl.
    rewrite He'. simpl. rewrite Hopt. simpl. rewrite He'. simpl.
    rewrite Hopt. reflexivity. }
  split.
  { unfold Api.POST_user_l517, bind_body. rewrite H, Huser.
    unfold serialize_response, Api.UserOut. simpl. unfold validate_field. simpl.
    rewrite He'. simpl. rewrite Hopt. reflexivity. }
  split; [exact H565|].
  split; [exact HUsers|].
  split; [rewrite H565; reflexivity|].
  split; [rewrite HUsers; reflexivity|].
  split; [simpl; intuition discriminate|].
  split; [simpl; intuition discriminate|].
  split.
  - rewrite Huser. unfold Api.fake_save_user, Api.UserInDB.
    simpl. unfold validate_field. simpl. rewrite He'. simpl. rewrite Hopt.
    reflexivity.
  - unfold Users.fake_save_user, Users.UserInDB, Users.UserBase.
    simpl. unfold validate_field. simpl. rewrite He'. simpl. rewrite Hopt.
    reflexivity.
Qed.

Lemma sample_EmailStr_stable (v v' : value) :
  Samples.EmailStr v = Some v' -> Samples.EmailStr v' = Some v'.
Proof.
  destruct v; simpl; intros H; try discriminate.
  destruct (existsb (Ascii.eqb "@"%char) (list_ascii_of_string s)) eqn:E;
    [|discriminate].
  injection H as <-. simpl. rewrite E. reflexivity.
Defined.

Lemma create_user_returns_only_UserOut_fields_witness :
  exists username password email full_name,
    [("username", VStr "rick"); ("password", VStr "wubba");
     ("email", VStr "rick@example.com"); ("full_name", VNone)]
    = [("username", VStr username); ("password", VStr password);
       ("email", email); ("full_name", full_name)] /\
    reply (Api.POST_user_l517 Samples.EmailStr Samples.user_body)
      = mkResponse 200 (JSON (VDict [("username", VStr username);
                                     ("email", email);
                                     ("full_name", full_name)])) /\
    reply (Api.POST_user_l565 Samples.EmailStr Samples.user_body)
      = mkResponse 200 (JSON (VDict [("username", VStr username);
                                     ("email", email);
                                     ("full_name", full_name)])) /\
    reply (Users.POST_user Samples.EmailStr Samples.str_of_errors
                           Samples.user_body)
      = mkResponse 200 (JSON (VDict [("username", VStr username);
                                     ("email", email);
                                     ("full_name", full_name)])) /\
    body_fields (reply (Api.POST_user_l565 Samples.EmailStr Samples.user_body))
      = ["username"; "email"; "full_name"] /\
    body_fields (reply (Users.POST_user Samples.EmailStr Samples.str_of_errors
                                        Samples.user_body))
      = ["username"; "email"; "full_name"] /\
    ~ In "password" ["username"; "email"; "full_name"] /\
    ~ In "hashed_password" ["username"; "email"; "full_name"] /\
    snd (Api.fake_save_user Samples.EmailStr
           [("username", VStr "rick"); ("password", VStr "wubba");
            ("email", VStr "rick@example.com"); ("full_name", VNone)])
      = Return [("username", VStr username);
                ("hashed_password", VStr ("supersecret" ++ password));
                ("email", email); ("full_name", full_name)] /\
    snd (Users.fake_save_user Samples.EmailStr
           [("username", VStr username); ("email", email);
            ("full_name", full_name); ("password", VStr password)])
      = Return [("username", VStr username); ("email", email);
                ("full_name", full_name);
                ("hashed_password", VStr ("supersecret" ++ password))].
Proof.
  apply (create_user_returns_only_UserOut_fields
           Samples.EmailStr Samples.str_of_errors Samples.user_body).
  - exact sample_EmailStr_stable.
  - reflexivity.
Defined.

(** ** The core service: [GET /items8/] *)

Lemma startswith_nonempty (ids : string) :
  startswith ids ["isbn-"; "imdb-"] = true -> String.eqb ids "" = false.
Proof.
  destruct ids; [discriminate | reflexivity].
Qed.

(** C3 as stated does not hold: for [ids=foo-1], which starts with neither
    prefix, the answer has status 422, not 400. *)
Lemma invalid_ids_answer_is_not_400 :
  startswith "foo-1" ["isbn-"; "imdb-"] = false /\
  status_code (reply (Api.GET_items8 0 (Some "foo-1"))) = 422%Z /\
  status_code (reply (Api.GET_items8 0 (Some "foo-1"))) <> 400%Z.
Proof.
  split; [reflexivity|]. split; [reflexivity|]. vm_compute; discriminate.
Qed.

(** C3, amended: for every supplied [ids] that starts with neither "isbn-"
    nor "imdb-", [check_valid_id] raises [ValueError] with the message
    'Invalid ID format, it must start with "isbn-" or "imdb-"'; the request
    fails as a request-validation error, which the core service, having no
    handler of its own for it, answers with status 422 and one detail entry
    for the query parameter [ids] whose message is "Value error, " followed
    by that text; [read_items8] is never entered. *)
Theorem invalid_ids_rejected_before_read_items8 (draw : nat) (ids : string) :
  startswith ids ["isbn-"; "imdb-"] = false ->
  dispatch Api.routes "GET" "/items8/" = Matched Api.Name.read_items8 [] /\
  snd (Api.check_valid_id ids) = Raise (ValueError Api.invalid_id_message) /\
  reply (Api.GET_items8 draw (Some ids))
    = mkResponse 422
        (JSON (VDict [("detail",
           VList [VDict [("loc", VList [VStr "query"; VStr "ids"]);
                         ("msg", VStr ("Value error, " ++ Api.invalid_id_message));
                         ("input", VStr ids)]])])) /\
  entered "read_items8" (trace (Api.GET_items8 draw (Some ids))) = false /\
  Api.exception_handlers (RequestValidationError []) = None.
Proof.
  intros H.
  split; [reflexivity|].
  unfold Api.GET_items8, after_validator, Api.check_valid_id, finish, call.
  rewrite H. repeat split; reflexivity.
Qed.

Lemma invalid_ids_rejected_before_read_items8_witness :
  dispatch Api.routes "GET" "/items8/" = Matched Api.Name.read_items8 [] /\
  snd (Api.check_valid_id "foo-1") = Raise (ValueError Api.invalid_id_message) /\
  reply (Api.GET_items8 0 (Some "foo-1"))
    = mkResponse 422
        (JSON (VDict [("detail",
           VList [VDict [("loc", VList [VStr "query"; VStr "ids"]);
                         ("msg", VStr ("Value error, " ++ Api.invalid_id_message));
                         ("input", VStr "foo-1")]])])) /\
  entered "read_items8" (trace (Api.GET_items8 0 (Some "foo-1"))) = false /\
  Api.exception_handlers (RequestValidationError []) = None.
Proof.
  apply (invalid_ids_rejected_before_read_items8 0 "foo-1"). reflexivity.
Defined.

(** C10: for every supplied [ids] that starts with "isbn-" or "imdb-" and
    is no key of the catalog [data], [GET /items8/] does not fail: the
    validator lets it pass, [data.get(ids)] is [None], and the answer is
    [{"id": ids, "name": null}] with status 200. *)
Theorem unknown_catalog_id_gives_null_name (draw : nat) (ids : string) :
  startswith ids ["isbn-"; "imdb-"] = true ->
  get Api.data ids = None ->
  reply (Api.GET_items8 draw (Some ids))
    = mkResponse 200 (JSON (VDict [("id", VStr ids); ("name", VNone)])) /\
  trace (Api.GET_items8 draw (Some ids))
    = [Enter "check_valid_id"; Enter "read_items8"].
Proof.
  intros Hprefix Hget.
  pose proof (startswith_nonempty ids Hprefix) as Hne.
  assert (Hvalid : after_validator "ids" Api.check_valid_id (Some ids)
                   = ([Enter "check_valid_id"], Return (Some ids))).
  { unfold after_validator, Api.check_valid_id, call.
    rewrite Hprefix. reflexivity. }
  assert (Hread : Api.read_items8 draw (Some ids)
                  = ([Enter "read_items8"],
                     Return (VDict [("id", VStr ids); ("name", VNone)]))).
  { unfold Api.read_items8, truthy, call.
    rewrite Hne. cbn [negb]. cbv iota. rewrite Hget. reflexivity. }
  unfold Api.GET_items8. rewrite Hvalid. cbn [mbind]. rewrite Hread.
  split; reflexivity.
Qed.

Lemma unknown_catalog_id_gives_null_name_witness :
  reply (Api.GET_items8 0 (Some "isbn-0000000000000"))
    = mkResponse 200
        (JSON (VDict [("id", VStr "isbn-0000000000000"); ("name", VNone)])) /\
  trace (Api.GET_items8 0 (Some "isbn-0000000000000"))
    = [Enter "check_valid_id"; Enter "read_items8"].
Proof.
  apply (unknown_catalog_id_gives_null_name 0 "isbn-0000000000000");
    reflexivity.
Defined.

(** ** The core service: lookups in [items] *)

Lemma items_get_unknown (item_id : string) :
  item_id <> "foo" -> item_id <> "bar" -> item_id <> "baz" ->
  get Api.items item_id = None.
Proof.
  intros Hfoo Hbar Hbaz. unfold Api.items. cbn [get].
  destruct (String.eqb_spec "foo" item_id) as [E|_]; [congruence|].
  destruct (String.eqb_spec "bar" item_id) as [E|_]; [congruence|].
  destruct (String.eqb_spec "baz" item_id) as [E|_]; [congruence|].
  reflexivity.
Qed.

Lemma api_items_name_path (item_id suffix : string) :
  has_slash item_id = false -> has_slash suffix = false ->
  split_slash ("/items/" ++ item_id ++ "/" ++ suffix)
  = [""; "items"; item_id; suffix].
Proof.
  intros Hi Hs.
  rewrite (split_slash_append "/items/"), (split_slash_append item_id).
  rewrite (split_slash_segment item_id Hi).
  change ("/" ++ suffix)%string with (String slash suffix).
  cbn [split_slash]. rewrite Ascii.eqb_refl, (split_slash_segment suffix Hs).
  simpl. rewrite append_empty_r. reflexivity.
Qed.

(** C9: for every [item_id] that is none of the keys "foo", "bar", "baz"
    of the core service's [items], [read_item_name] and
    [read_item_public_data] index the fixture without a membership test:
    the lookup raises [KeyError], which no handler catches, so both
    [GET /items/{item_id}/name] and [GET /items/{item_id}/public] answer
    with a server error (500) and not with 404. *)
Theorem unknown_item_is_unhandled_KeyError
    (HttpUrl : value -> option value) (item_id : string) :
  item_id <> "foo" -> item_id <> "bar" -> item_id <> "baz" ->
  snd (Api.read_item_name item_id) = Raise (KeyError item_id) /\
  snd (Api.read_item_public_data item_id) = Raise (KeyError item_id) /\
  Api.exception_handlers (KeyError item_id) = None /\
  reply (Api.GET_items_name HttpUrl item_id)
    = mkResponse 500 (PlainText "Internal Server Error") /\
  reply (Api.GET_items_public HttpUrl item_id)
    = mkResponse 500 (PlainText "Internal Server Error") /\
  status_code (reply (Api.GET_items_name HttpUrl item_id)) <> 404%Z /\
  status_code (reply (Api.GET_items_public HttpUrl item_id)) <> 404%Z /\
  (path_segment item_id ->
   dispatch Api.routes "GET" ("/items/" ++ item_id ++ "/name")
     = Matched Api.Name.read_item_name [("item_id", item_id)] /\
   dispatch Api.routes "GET" ("/items/" ++ item_id ++ "/public")
     = Matched Api.Name.read_item_public_data [("item_id", item_id)]).
Proof.
  intros Hfoo Hbar Hbaz.
  pose proof (items_get_unknown item_id Hfoo Hbar Hbaz) as Hget.
  assert (Hname : reply (Api.GET_items_name HttpUrl item_id)
                  = mkResponse 500 (PlainText "Internal Server Error")).
  { unfold Api.GET_items_name, Api.read_item_name, getitem, finish, call.
    rewrite Hget. reflexivity. }
  assert (Hpublic : reply (Api.GET_items_public HttpUrl item_id)
                    = mkResponse 500 (PlainText "Internal Server Error")).
  { unfold Api.GET_items_public, Api.read_item_public_data, getitem, finish,
      call.
    rewrite Hget. reflexivity. }
  split; [unfold Api.read_item_name, getitem; rewrite Hget; reflexivity|].
  split; [unfold Api.read_item_public_data, getitem; rewrite Hget; reflexivity|].
  split; [reflexivity|].
  split; [exact Hname|]. split; [exact Hpublic|].
  split; [rewrite Hname; simpl; discriminate|].
  split; [rewrite Hpublic; simpl; discriminate|].
  intros [Hne Hslash]. split.
  - pose proof (api_items_name_path item_id "name" Hslash eq_refl) as Hsplit.
    change ("/" ++ "name")%string with "/name" in Hsplit.
    destruct item_id as [|c s]; [contradiction|].
    dispatch_at 38%nat Hsplit.
  - pose proof (api_items_name_path item_id "public" Hslash eq_refl) as Hsplit.
    change ("/" ++ "public")%string with "/public" in Hsplit.
    destruct item_id as [|c s]; [contradiction|].
    dispatch_at 39%nat Hsplit.
Qed.

Lemma unknown_item_is_unhandled_KeyError_witness :
  snd (Api.read_item_name "qux") = Raise (KeyError "qux") /\
  snd (Api.read_item_public_data "qux") = Raise (KeyError "qux") /\
  Api.exception_handlers (KeyError "qux") = None /\
  reply (Api.GET_items_name Samples.HttpUrl "qux")
    = mkResponse 500 (PlainText "Internal Server Error") /\
  reply (Api.GET_items_public Samples.HttpUrl "qux")
    = mkResponse 500 (PlainText "Internal Server Error") /\
  status_code (reply (Api.GET_items_name Samples.HttpUrl "qux")) <> 404%Z /\
  status_code (reply (Api.GET_items_public Samples.HttpUrl "qux")) <> 404%Z /\
  (path_segment "qux" ->
   dispatch Api.routes "GET" ("/items/" ++ "qux" ++ "/name")
     = Matched Api.Name.read_item_name [("item_id", "qux")] /\
   dispatch Api.routes "GET" ("/items/" ++ "qux" ++ "/public")
     = Matched Api.Name.read_item_public_data [("item_id", "qux")]).
Proof.
  apply (unknown_item_is_unhandled_KeyError Samples.HttpUrl "qux");
    discriminate.
Defined.

(** ** The core service: [PUT /items9/{item_id}] *)

(** C7 as stated does not hold for every valid request: with a
    timezone-aware [start_datetime] (2024-01-01T00:00:00Z), a naive
    [end_datetime] (2024-01-02T00:00:00) and [process_after] of one hour,
    all three valid values, the subtraction raises [TypeError] and there
    are no derived values to answer with. *)
Lemma update_items9_mixed_awareness_raises :
  datetime_ok (mkDatetime Samples.new_year_2024 (Some 0%Z)) /\
  datetime_ok (mkDatetime (Samples.new_year_2024 + us_per_day) None) /\
  timedelta_ok Samples.us_per_hour /\
  snd (Api.update_items9 7%Z
         (mkDatetime Samples.new_year_2024 (Some 0%Z))
         (mkDatetime (Samples.new_year_2024 + us_per_day) None)
         Samples.us_per_hour None)
  = Raise (TypeError "can't subtract offset-naive and offset-aware datetimes").
Proof.
  repeat split; vm_compute; congruence.
Qed.

(** C7, amended: whenever [start_datetime + process_after] is a
    representable datetime and the two datetimes are both naive or both
    timezone-aware, [update_items9] returns the five inputs unchanged
    together with [start_process], the start's wall clock moved by
    [process_after] in the start's timezone, and [duration], the time from
    the instant of [start_process] to the instant of [end_datetime]. *)
Theorem update_items9_arithmetic
    (item_id : Api.UUID) (start_datetime end_datetime : datetime)
    (process_after : timedelta) (repeat_at : option Api.time) :
  (0 <= wall start_datetime + process_after < MAXORDINAL * us_per_day)%Z ->
  (utcoffset start_datetime = None <-> utcoffset end_datetime = None) ->
  exists r,
    snd (Api.update_items9 item_id start_datetime end_datetime
                           process_after repeat_at) = Return r /\
    Api.item_id r = item_id /\
    Api.start_datetime r = start_datetime /\
    Api.end_datetime r = end_datetime /\
    Api.process_after r = process_after /\
    Api.repeat_at r = repeat_at /\
    datetime_add start_datetime process_after = Return (Api.start_process r) /\
    datetime_sub end_datetime (Api.start_process r)
      = Return (Api.duration r) /\
    wall (Api.start_process r) = (wall start_datetime + process_after)%Z /\
    utcoffset (Api.start_process r) = utcoffset start_datetime /\
    Api.duration r = (instant end_datetime - instant (Api.start_process r))%Z /\
    Api.duration r
      = (instant end_datetime - instant start_datetime - process_after)%Z.
Proof.
  intros [Hlo Hhi] Haware.
  unfold Api.update_items9, datetime_add, datetime_sub, instant.
  apply Z.leb_le in Hlo. apply Z.ltb_lt in Hhi. rewrite Hlo, Hhi.
  destruct start_datetime as [ws [os|]], end_datetime as [we [oe|]];
    cbn [wall utcoffset] in *.
  - eexists. cbn. repeat split; try reflexivity; cbn; lia.
  - destruct Haware as [_ Habs]. specialize (Habs eq_refl). discriminate.
  - destruct Haware as [Habs _]. specialize (Habs eq_refl). discriminate.
  - eexists. cbn. repeat split; try reflexivity; cbn; lia.
Qed.

Lemma update_items9_arithmetic_witness :
  exists r,
    snd (Api.update_items9 7%Z
           (mkDatetime Samples.new_year_2024 None)
           (mkDatetime (Samples.new_year_2024 + us_per_day) None)
           Samples.us_per_hour None) = Return r /\
    Api.item_id r = 7%Z /\
    Api.start_datetime r = mkDatetime Samples.new_year_2024 None /\
    Api.end_datetime r = mkDatetime (Samples.new_year_2024 + us_per_day) None /\
    Api.process_after r = Samples.us_per_hour /\
    Api.repeat_at r = None /\
    datetime_add (mkDatetime Samples.new_year_2024 None) Samples.us_per_hour
      = Return (Api.start_process r) /\
    datetime_sub (mkDatetime (Samples.new_year_2024 + us_per_day) None)
                 (Api.start_process r)
      = Return (Api.duration r) /\
    wall (Api.start_process r)
      = (wall (mkDatetime Samples.new_year_2024 None) + Samples.us_per_hour)%Z /\
    utcoffset (Api.start_process r)
      = utcoffset (mkDatetime Samples.new_year_2024 None) /\
    Api.duration r
      = (instant (mkDatetime (Samples.new_year_2024 + us_per_day) None)
         - instant (Api.start_process r))%Z /\
    Api.duration r
      = (instant (mkDatetime (Samples.new_year_2024 + us_per_day) None)
         - instant (mkDatetime Samples.new_year_2024 None)
         - Samples.us_per_hour)%Z.
Proof.
  apply (update_items9_arithmetic 7%Z
           (mkDatetime Samples.new_year_2024 None)
           (mkDatetime (Samples.new_year_2024 + us_per_day) None)
           Samples.us_per_hour None).
  - vm_compute. split; congruence.
  - split; reflexivity.
Defined.

(** ** The user module: [GET /unicorns/{name}] *)

Lemma users_unicorns_path (name : string) :
  path_segment name ->
  split_slash ("/unicorns/" ++ name) = [""; "unicorns"; name].
Proof.
  intros [_ Hs]. rewrite (split_slash_app "/unicorns/" name Hs). reflexivity.
Qed.

(** C8: [GET /unicorns/{name}] answers with status 418 and body
    [{"message": "Oops! <name> did something. There goes a rainbow..."}]
    exactly when [name] is "yolo", through the handler registered for
    [UnicornException]; for every other [name] it answers
    [{"unicorn_name": name}] with status 200. *)
Theorem read_unicorn_418_iff_yolo
    (str_of_errors : list error_details -> string) (name : string) :
  (name = "yolo" ->
   snd (Users.read_unicorn name) = Raise (UnicornException name) /\
   reply (Users.GET_unicorns str_of_errors name)
     = mkResponse 418
         (JSON (VDict [("message",
            VStr "Oops! yolo did something. There goes a rainbow...")]))) /\
  (name <> "yolo" ->
   reply (Users.GET_unicorns str_of_errors name)
     = mkResponse 200 (JSON (VDict [("unicorn_name", VStr name)]))) /\
  (status_code (reply (Users.GET_unicorns str_of_errors name)) = 418%Z
   <-> name = "yolo") /\
  (forall who,
     Users.exception_handlers str_of_errors (UnicornException who)
     = Some (mkResponse 418
               (JSON (VDict [("message",
                  VStr ("Oops! " ++ who
                        ++ " did something. There goes a rainbow..."))])))) /\
  (path_segment name ->
   dispatch Users.routes "GET" ("/unicorns/" ++ name)
   = Matched Users.Name.read_unicorn [("name", name)]).
Proof.
  assert (Hyolo : name = "yolo" ->
                  reply (Users.GET_unicorns str_of_errors name)
                  = mkResponse 418
                      (JSON (VDict [("message",
                         VStr "Oops! yolo did something. There goes a rainbow...")]))).
  { intros ->. reflexivity. }
  assert (Hother : name <> "yolo" ->
                   reply (Users.GET_unicorns str_of_errors name)
                   = mkResponse 200 (JSON (VDict [("unicorn_name", VStr name)]))).
  { intros Hne. apply String.eqb_neq in Hne.
    unfold Users.GET_unicorns, Users.read_unicorn, finish, call.
    rewrite Hne. reflexivity. }
  split; [intros E; split; [subst; reflexivity | exact (Hyolo E)]|].
  split; [exact Hother|].
  split.
  { split.
    - intros Hstatus. destruct (string_dec name "yolo") as [E|Hne]; [exact E|].
      rewrite (Hother Hne) in Hstatus. discriminate.
    - intros E. rewrite (Hyolo E). reflexivity. }
  split; [reflexivity|].
  intros Hseg. pose proof (users_unicorns_path name Hseg) as Hsplit.
  destruct Hseg as [Hne _].
  destruct name as [|c s]; [contradiction|].
  dispatch_at 10%nat Hsplit.
Qed.

(** ** The dependency module: the header gates *)

Lemma verify_token_outcome (x_token : string) :
  snd (Dependencies.verify_token x_token)
  = if String.eqb x_token "fake-super-secret-token"
    then Return tt
    else Raise (HTTPException 400 "X-Token header invalid").
Proof.
  unfold Dependencies.verify_token, call.
  destruct (String.eqb x_token "fake-super-secret-token"); reflexivity.
Qed.

Lemma verify_key_outcome (x_key : string) :
  snd (Dependencies.verify_key x_key)
  = if String.eqb x_key "fake-super-secret-key"
    then Return x_key
    else Raise (HTTPException 400 "X-Key header invalid").
Proof.
  unfold Dependencies.verify_key, call.
  destruct (String.eqb x_key "fake-super-secret-key"); reflexivity.
Qed.

(** Of the four [GET /items/] routes of the dependency module the router
    serves the first (line 38); the gated one (line 86) is studied below as
    a route of its own. *)
Lemma dependencies_items_dispatch :
  dispatch Dependencies.routes "GET" "/items/"
  = Matched Dependencies.Name.read_items_l38 [].
Proof. reflexivity. Qed.

(** The gated route, by cases on what the two headers carry. *)
Lemma gated_items_cases (x_token x_key : option string) :
  Dependencies.GET_items_l86 x_token x_key
  = match x_token, x_key with
    | Some t, Some k =>
        if String.eqb t "fake-super-secret-token"
        then if String.eqb k "fake-super-secret-key"
             then mkExchange
                    [Enter "verify_token"; Enter "verify_key"; Enter "read_items"]
                    (mkResponse 200
                       (JSON (VList [VDict [("item", VStr "Foo")];
                                     VDict [("item", VStr "Bar")]])))
             else mkExchange
                    [Enter "verify_token"; Enter "verify_key"]
                    (mkResponse 400
                       (JSON (VDict [("detail", VStr "X-Key header invalid")])))
        else mkExchange
               [Enter "verify_token"]
               (mkResponse 400
                  (JSON (VDict [("detail", VStr "X-Token header invalid")])))
    | Some t, None =>
        if String.eqb t "fake-super-secret-token"
        then mkExchange
               [Enter "verify_token"]
               (mkResponse 422
                  (JSON (VDict [("detail",
                     VList [VDict [("loc", VList [VStr "header"; VStr "x-key"]);
                                   ("msg", VStr "Field required");
                                   ("input", VNone)]])])))
        else mkExchange
               [Enter "verify_token"]
               (mkResponse 400
                  (JSON (VDict [("detail", VStr "X-Token header invalid")])))
    | None, Some k =>
        if String.eqb k "fake-super-secret-key"
        then mkExchange
               [Enter "verify_key"]
               (mkResponse 422
                  (JSON (VDict [("detail",
                     VList [VDict [("loc", VList [VStr "header"; VStr "x-token"]);
                                   ("msg", VStr "Field required");
                                   ("input", VNone)]])])))
        else mkExchange
               [Enter "verify_key"]
               (mkResponse 400
                  (JSON (VDict [("detail", VStr "X-Key header invalid")])))
    | None, None =>
        mkExchange []
          (mkResponse 422
             (JSON (VDict [("detail",
                VList [VDict [("loc", VList [VStr "header"; VStr "x-token"]);
                              ("msg", VStr "Field required");
                              ("input", VNone)];
                       VDict [("loc", VList [VStr "header"; VStr "x-key"]);
                              ("msg", VStr "Field required");
                              ("input", VNone)]])])))
    end.
Proof.
  unfold Dependencies.GET_items_l86, Dependencies.solve_header,
    Dependencies.verify_token, Dependencies.verify_key, finish, call.
  destruct x_token as [t|], x_key as [k|]; cbn;
    repeat match goal with
           | |- context [String.eqb ?a ?b] => destruct (String.eqb a b); cbn
           end;
    reflexivity.
Qed.

Lemma gated_read_items_entered (supplied_token supplied_key : option string) :
  entered "read_items"
    (trace (Dependencies.GET_items_l86 supplied_token supplied_key)) = true ->
  supplied_token = Some "fake-super-secret-token" /\
  supplied_key = Some "fake-super-secret-key".
Proof.
  rewrite gated_items_cases.
  destruct supplied_token as [t|], supplied_key as [k|].
  - destruct (String.eqb_spec t "fake-super-secret-token");
      destruct (String.eqb_spec k "fake-super-secret-key");
      cbn; intros H; try discriminate. subst. split; reflexivity.
  - destruct (String.eqb_spec t "fake-super-secret-token"); cbn; discriminate.
  - destruct (String.eqb_spec k "fake-super-secret-key"); cbn; discriminate.
  - cbn. discriminate.
Qed.

(** C6: [verify_token] fails, with a 400 "X-Token header invalid", exactly
    when the [x-token] header differs from "fake-super-secret-token", and
    returns nothing otherwise; [verify_key] fails, with a 400 "X-Key header
    invalid", exactly when the [x-key] header differs from
    "fake-super-secret-key", and returns the key otherwise.  On the gated
    [/items/] route (line 86) a failing gate gives that 400 as the answer,
    and the endpoint [read_items] is entered only when both headers carry
    the secrets. *)
Theorem header_gates_guard_read_items (x_token x_key : string) :
  (snd (Dependencies.verify_token x_token)
     = Raise (HTTPException 400 "X-Token header invalid")
   <-> x_token <> "fake-super-secret-token") /\
  (snd (Dependencies.verify_token x_token) = Return tt
   <-> x_token = "fake-super-secret-token") /\
  (snd (Dependencies.verify_key x_key)
     = Raise (HTTPException 400 "X-Key header invalid")
   <-> x_key <> "fake-super-secret-key") /\
  (snd (Dependencies.verify_key x_key) = Return x_key
   <-> x_key = "fake-super-secret-key") /\
  (x_token <> "fake-super-secret-token" ->
   reply (Dependencies.GET_items_l86 (Some x_token) (Some x_key))
   = mkResponse 400 (JSON (VDict [("detail", VStr "X-Token header invalid")]))) /\
  (x_token = "fake-super-secret-token" -> x_key <> "fake-super-secret-key" ->
   reply (Dependencies.GET_items_l86 (Some x_token) (Some x_key))
   = mkResponse 400 (JSON (VDict [("detail", VStr "X-Key header invalid")]))) /\
  (entered "read_items"
     (trace (Dependencies.GET_items_l86 (Some x_token) (Some x_key))) = true
   <-> x_token = "fake-super-secret-token" /\ x_key = "fake-super-secret-key") /\
  (forall supplied_token supplied_key : option string,
     entered "read_items"
       (trace (Dependencies.GET_items_l86 supplied_token supplied_key)) = true ->
     supplied_token = Some "fake-super-secret-token" /\
     supplied_key = Some "fake-super-secret-key").
Proof.
  rewrite verify_token_outcome, verify_key_outcome.
  split.
  { split.
    - intros H E. subst. discriminate.
    - intros H. apply String.eqb_neq in H. rewrite H. reflexivity. }
  split.
  { split.
    - intros H. destruct (String.eqb_spec x_token "fake-super-secret-token");
        [assumption | discriminate].
    - intros ->. reflexivity. }
  split.
  { split.
    - intros H E. subst. discriminate.
    - intros H. apply String.eqb_neq in H. rewrite H. reflexivity. }
  split.
  { split.
    - intros H. destruct (String.eqb_spec x_key "fake-super-secret-key");
        [assumption | discriminate].
    - intros ->. reflexivity. }
  split.
  { intros H. apply String.eqb_neq in H.
    rewrite gated_items_cases, H. reflexivity. }
  split.
  { intros -> H. apply String.eqb_neq in H.
    rewrite gated_items_cases, H. reflexivity. }
  split.
  { split.
    - intros H. apply gated_read_items_entered in H.
      destruct H as [Ht Hk]. injection Ht as ->. injection Hk as ->.
      split; reflexivity.
    - intros [-> ->]. reflexivity. }
  intros supplied_token supplied_key. apply gated_read_items_entered.
Qed.

(** ** The dependency module: the ownership check *)

(** Whatever the route does inside the scope of [get_username], no
    [OwnerError] leaves the scope. *)
Lemma get_username_contains_OwnerError {B} (route_body : string -> M B)
    (payload : string) :
  snd (with_yield "get_username" Dependencies.get_username route_body)
  <> Raise (OwnerError payload).
Proof.
  unfold with_yield, mbind, call, ret. cbn.
  destruct (route_body "Rick") as [t [b|e]]; cbn; [discriminate|].
  destruct e; discriminate.
Qed.

Lemma dependencies_items_path (item_id : string) :
  path_segment item_id ->
  split_slash ("/items/" ++ item_id) = [""; "items"; item_id].
Proof.
  intros [_ Hs]. rewrite (split_slash_app "/items/" item_id Hs). reflexivity.
Qed.

(** C4: on [GET /items/{item_id}] of the dependency module, where the
    resolved identity is "Rick": an [item_id] that is no key of [data]
    gets 404 "Item not found"; a record owned by someone else makes
    [get_item] raise [OwnerError("Rick")], which [get_username] turns into
    a 400 whose detail is "Owner error: Rick" (so for "plumbus", owned by
    "Morty"); a record owned by "Rick" is returned whole (so for
    "portal-gun").  No [OwnerError] ever leaves the scope of
    [get_username]. *)
Theorem get_item_checks_owner (item_id : string) :
  (get Dependencies.data item_id = None ->
   reply (Dependencies.GET_item item_id)
   = mkResponse 404 (JSON (VDict [("detail", VStr "Item not found")]))) /\
  (forall item owner,
     get Dependencies.data item_id = Some item ->
     get item "owner" = Some (VStr owner) ->
     owner <> "Rick" ->
     snd (Dependencies.get_item item_id "Rick") = Raise (OwnerError "Rick") /\
     reply (Dependencies.GET_item item_id)
     = mkResponse 400 (JSON (VDict [("detail", VStr "Owner error: Rick")]))) /\
  (forall item,
     get Dependencies.data item_id = Some item ->
     get item "owner" = Some (VStr "Rick") ->
     reply (Dependencies.GET_item item_id)
     = mkResponse 200 (JSON (VDict item))) /\
  (forall B (route_body : string -> M B) payload,
     snd (with_yield "get_username" Dependencies.get_username route_body)
     <> Raise (OwnerError payload)) /\
  reply (Dependencies.GET_item "plumbus")
  = mkResponse 400 (JSON (VDict [("detail", VStr "Owner error: Rick")])) /\
  reply (Dependencies.GET_item "portal-gun")
  = mkResponse 200
      (JSON (VDict [("description", VStr "Gun to create portals");
                    ("owner", VStr "Rick")])) /\
  (path_segment item_id ->
   dispatch Dependencies.routes "GET" ("/items/" ++ item_id)
   = Matched Dependencies.Name.get_item [("item_id", item_id)]).
Proof.
  split.
  { intros Hget.
    unfold Dependencies.GET_item, with_yield, Dependencies.get_item,
      contains, getitem, finish, call.
    rewrite Hget. reflexivity. }
  split.
  { intros item owner Hget Howner Hne. apply String.eqb_neq in Hne.
    unfold Dependencies.GET_item, with_yield, Dependencies.get_item,
      contains, getitem, finish, call.
    rewrite Hget. cbn. rewrite Howner. cbn. rewrite Hne.
    split; reflexivity. }
  split.
  { intros item Hget Howner.
    unfold Dependencies.GET_item, with_yield, Dependencies.get_item,
      contains, getitem, finish, call.
    rewrite Hget. cbn. rewrite Howner. reflexivity. }
  split; [intros B route_body payload; apply get_username_contains_OwnerError|].
  split; [reflexivity|]. split; [reflexivity|].
  intros Hseg. pose proof (dependencies_items_path item_id Hseg) as Hsplit.
  destruct Hseg as [Hne _].
  destruct item_id as [|c s]; [contradiction|].
  dispatch_at 5%nat Hsplit.
Qed.

(* ===================================================================== *)
(** * Further properties of the three modules *)
(* ===================================================================== *)

(** ** Paging: [limit] as an index and [limit] as a count *)

Lemma length_slice {A} (l : list A) (start stop : Z) :
  length (slice l start stop)
  = Z.to_nat (slice_index (Z.of_nat (length l)) stop
              - slice_index (Z.of_nat (length l)) start).
Proof.
  unfold slice. set (len := Z.of_nat (length l)).
  pose proof (slice_index_range len start (Nat2Z.is_nonneg _)) as Hlo.
  pose proof (slice_index_range len stop (Nat2Z.is_nonneg _)) as Hhi.
  rewrite length_firstn, length_skipn. lia.
Qed.

(** X1: the list [read_items] of the core service returns has
    [hi - lo] elements for the two bounds of the slice, never more than
    the three of the fixture; as [limit] is an index, a request whose
    [limit] does not exceed its [skip] (both not below zero), such as the
    second page [skip=2, limit=2], gets the empty list. *)
Theorem read_items_length (skip limit : Z) :
  length (slice Api.fake_items_db skip limit)
    = Z.to_nat (slice_index 3 limit - slice_index 3 skip) /\
  (length (slice Api.fake_items_db skip limit) <= 3)%nat /\
  ((0 <= limit <= skip)%Z ->
   reply (Api.GET_items (Some skip) (Some limit))
   = mkResponse 200 (JSON (VList []))) /\
  ((0 <= skip)%Z -> (skip <= limit)%Z ->
   length (slice Api.fake_items_db skip limit)
   = Z.to_nat (Z.min limit 3 - Z.min skip 3)).
Proof.
  pose proof (length_slice Api.fake_items_db skip limit) as Hlen.
  change (Z.of_nat (length Api.fake_items_db)) with 3%Z in Hlen.
  pose proof (slice_index_range 3 skip ltac:(lia)) as Hlo.
  pose proof (slice_index_range 3 limit ltac:(lia)) as Hhi.
  split; [exact Hlen|].
  split; [rewrite Hlen; lia|].
  split.
  - intros Hle.
    assert (Hnil : slice Api.fake_items_db skip limit = []).
    { apply length_zero_iff_nil. rewrite Hlen. unfold slice_index.
      destruct (Z.ltb_spec limit 0), (Z.ltb_spec skip 0); lia. }
    unfold Api.GET_items, Api.read_items, finish, call. cbn.
    rewrite Hnil. reflexivity.
  - intros Hs Hl. rewrite Hlen. unfold slice_index.
    destruct (Z.ltb_spec limit 0), (Z.ltb_spec skip 0); lia.
Qed.

(** X2: [GET /items/] of the dependency module is served by the
    [read_items] of line 38, where [limit] is a count: for [skip] and
    [limit] not below zero the answer lists the fixture's elements
    [skip], ..., [skip + limit - 1] as far as they exist, after a field
    [q] that is there exactly when [q] was given and is not empty. *)
Theorem dependencies_read_items_limit_is_count
    (q : option string) (skip limit : Z) :
  (0 <= skip)%Z -> (0 <= limit)%Z ->
  dispatch Dependencies.routes "GET" "/items/"
    = Matched Dependencies.Name.read_items_l38 [] /\
  exists items,
    reply (Dependencies.GET_items_l38 q (Some skip) (Some limit))
    = mkResponse 200
        (JSON (VDict ((if truthy q
                       then [("q", match q with
                                   | Some s => VStr s
                                   | None => VNone
                                   end)]
                       else [])
                      ++ [("items", VList items)]))) /\
    (forall k : nat,
       nth_error items k =
       if (Z.of_nat k <? limit)%Z
       then nth_error Dependencies.fake_items_db (Z.to_nat skip + k)
       else None) /\
    length items = Z.to_nat (Z.min limit (Z.max 0 (3 - skip))).
Proof.
  intros Hskip Hlimit. split; [reflexivity|].
  exists (slice Dependencies.fake_items_db skip (skip + limit)).
  split.
  { unfold Dependencies.GET_items_l38, Dependencies.read_items_l38, finish,
      call. cbn.
    destruct q as [s|]; cbn; [destruct (String.eqb s ""); reflexivity|].
    reflexivity. }
  split.
  { intros k.
    rewrite (nth_error_slice Dependencies.fake_items_db skip (skip + limit) k)
      by lia.
    destruct (Z.ltb_spec (skip + Z.of_nat k) (skip + limit)),
             (Z.ltb_spec (Z.of_nat k) limit); try lia; reflexivity. }
  rewrite length_slice.
  change (Z.of_nat (length Dependencies.fake_items_db)) with 3%Z.
  unfold slice_index.
  destruct (Z.ltb_spec (skip + limit) 0), (Z.ltb_spec skip 0); lia.
Qed.

Lemma dependencies_read_items_limit_is_count_witness :
  dispatch Dependencies.routes "GET" "/items/"
    = Matched Dependencies.Name.read_items_l38 [] /\
  exists items,
    reply (Dependencies.GET_items_l38 (Some "x") (Some 1%Z) (Some 2%Z))
    = mkResponse 200
        (JSON (VDict ((if truthy (Some "x")
                       then [("q", match Some "x" with
                                   | Some s => VStr s
                                   | None => VNone
                                   end)]
                       else [])
                      ++ [("items", VList items)]))) /\
    (forall k : nat,
       nth_error items k =
       if (Z.of_nat k <? 2)%Z
       then nth_error Dependencies.fake_items_db (Z.to_nat 1 + k)
       else None) /\
    length items = Z.to_nat (Z.min 2 (Z.max 0 (3 - 1))).
Proof.
  apply (dependencies_read_items_limit_is_count (Some "x") 1 2); lia.
Defined.

(** ** The core service: more on [GET /items8/] *)

(** X3: without [ids], [GET /items8/] answers 200 with an entry of the
    catalog, whatever [random.choice] draws: the validator is not run and
    the choice never fails. *)
Theorem read_items8_random_entry_of_catalog (draw : nat) :
  exists ids title,
    In (ids, title) Api.data /\
    reply (Api.GET_items8 draw None)
    = mkResponse 200 (JSON (VDict [("id", VStr ids); ("name", VStr title)])) /\
    trace (Api.GET_items8 draw None) = [Enter "read_items8"].
Proof.
  assert (Hchoice : exists ids title,
             random_choice draw Api.data = Some (ids, title) /\
             In (ids, title) Api.data).
  { unfold random_choice. change (length Api.data) with 3%nat.
    pose proof (Nat.mod_upper_bound draw 3 ltac:(discriminate)) as Hlt.
    destruct (draw mod 3)%nat as [|[|[|n]]]; [| | |lia];
      eexists _, _; (split; [reflexivity | simpl; tauto]). }
  destruct Hchoice as (ids & title & Hchoice & Hin).
  exists ids, title. split; [exact Hin|].
  unfold Api.GET_items8, after_validator, Api.read_items8, finish, call.
  cbn -[random_choice]. rewrite Hchoice. split; reflexivity.
Qed.

(** X4: with [ids] supplied, whatever its value (the empty string too),
    the exchange does not depend on what [random.choice] would draw: the
    random branch of [read_items8] is reached only when [ids] is left
    out. *)
Theorem read_items8_supplied_ids_ignores_draw (draw draw' : nat)
    (ids : string) :
  Api.GET_items8 draw (Some ids) = Api.GET_items8 draw' (Some ids).
Proof.
  unfold Api.GET_items8, after_validator, Api.check_valid_id, call.
  destruct (startswith ids ["isbn-"; "imdb-"]) eqn:Hprefix; cbn.
  - pose proof (startswith_nonempty ids Hprefix) as Hne.
    unfold Api.read_items8, truthy, call. rewrite Hne. reflexivity.
  - reflexivity.
Qed.

Lemma data_get_inv (ids title : string) :
  get Api.data ids = Some title ->
  (ids = "isbn-9781529046137" \/ ids = "imdb-tt0371724"
   \/ ids = "isbn-9781439512982").
Proof.
  unfold Api.data. cbn [get].
  destruct (String.eqb_spec "isbn-9781529046137" ids); [auto|].
  destruct (String.eqb_spec "imdb-tt0371724" ids); [auto|].
  destruct (String.eqb_spec "isbn-9781439512982" ids); [auto|].
  discriminate.
Qed.

(** X5: every key of the catalog passes [check_valid_id], and asking for
    it returns its own title. *)
Theorem read_items8_catalog_key_gives_title (draw : nat) (ids title : string) :
  get Api.data ids = Some title ->
  startswith ids ["isbn-"; "imdb-"] = true /\
  reply (Api.GET_items8 draw (Some ids))
  = mkResponse 200 (JSON (VDict [("id", VStr ids); ("name", VStr title)])).
Proof.
  intros Hget.
  destruct (data_get_inv ids title Hget) as [-> | [-> | ->]];
    cbv in Hget; injection Hget as <-; split; reflexivity.
Qed.

Lemma read_items8_catalog_key_gives_title_witness :
  startswith "imdb-tt0371724" ["isbn-"; "imdb-"] = true /\
  reply (Api.GET_items8 0 (Some "imdb-tt0371724"))
  = mkResponse 200
      (JSON (VDict [("id", VStr "imdb-tt0371724");
                    ("name", VStr "The Hitchhiker's Guide to the Galaxy")])).
Proof.
  apply (read_items8_catalog_key_gives_title 0 "imdb-tt0371724").
  reflexivity.
Defined.

(** ** The core service: known items, the portal, the password *)

Lemma items_get_inv (item_id : string) (record : dict value) :
  get Api.items item_id = Some record ->
  item_id = "foo" \/ item_id = "bar" \/ item_id = "baz".
Proof.
  unfold Api.items. cbn [get].
  destruct (String.eqb_spec "foo" item_id); [auto|].
  destruct (String.eqb_spec "bar" item_id); [auto|].
  destruct (String.eqb_spec "baz" item_id); [auto|].
  discriminate.
Qed.

(** X6: for every key of the core service's [items], the record passes
    the [Item] contract and [GET /items/{item_id}/name] answers 200 with
    the two fields [name] and [description] only (the name being the
    record's), while [GET /items/{item_id}/public] answers 200 with every
    field of [Item] but [tax]. *)
Theorem known_item_name_and_public_fields
    (HttpUrl : value -> option value) (item_id : string)
    (record : dict value) :
  get Api.items item_id = Some record ->
  status_code (reply (Api.GET_items_name HttpUrl item_id)) = 200%Z /\
  body_fields (reply (Api.GET_items_name HttpUrl item_id))
    = ["name"; "description"] /\
  (exists d, body (reply (Api.GET_items_name HttpUrl item_id)) = JSON (VDict d)
             /\ get d "name" = get record "name") /\
  status_code (reply (Api.GET_items_public HttpUrl item_id)) = 200%Z /\
  body_fields (reply (Api.GET_items_public HttpUrl item_id))
    = ["name"; "description"; "price"; "tags"; "image"] /\
  ~ In "tax" (body_fields (reply (Api.GET_items_public HttpUrl item_id))).
Proof.
  intros Hget.
  destruct (items_get_inv item_id record Hget) as [-> | [-> | ->]];
    cbv in Hget; injection Hget as <-;
    (split; [reflexivity|]); (split; [reflexivity|]);
    (split; [eexists; split; reflexivity|]);
    (split; [reflexivity|]); (split; [reflexivity|]);
    cbn; intuition discriminate.
Qed.

Lemma known_item_name_and_public_fields_witness :
  status_code (reply (Api.GET_items_name Samples.HttpUrl "bar")) = 200%Z /\
  body_fields (reply (Api.GET_items_name Samples.HttpUrl "bar"))
    = ["name"; "description"] /\
  (exists d, body (reply (Api.GET_items_name Samples.HttpUrl "bar"))
             = JSON (VDict d)
             /\ get d "name"
                = get [("name", VStr "Bar");
                       ("description", VStr "The Bar fighters");
                       ("price", VInt 62);
                       ("tax", VFloat 202 (-1))] "name") /\
  status_code (reply (Api.GET_items_public Samples.HttpUrl "bar")) = 200%Z /\
  body_fields (reply (Api.GET_items_public Samples.HttpUrl "bar"))
    = ["name"; "description"; "price"; "tags"; "image"] /\
  ~ In "tax" (body_fields (reply (Api.GET_items_public Samples.HttpUrl "bar"))).
Proof.
  apply (known_item_name_and_public_fields Samples.HttpUrl "bar").
  reflexivity.
Defined.

(** X7: the two declarations of [GET /portal] give the same answer for
    every [teleport]: a redirect to the fixed address when it is true,
    the JSON message otherwise; which of the two the router serves cannot
    be seen from outside. *)
Theorem get_portal_declarations_agree (teleport : option bool) :
  reply (Api.GET_portal_l523 teleport) = reply (Api.GET_portal_l532 teleport) /\
  reply (Api.GET_portal_l523 teleport)
  = (if Api.default_to false teleport
     then mkResponse 307 (Redirect Api.portal_url)
     else mkResponse 200 (JSON Api.portal_message)).
Proof.
  destruct teleport as [[|]|]; split; reflexivity.
Qed.

Lemma substring_all (s : string) : substring 0 (String.length s) s = s.
Proof. induction s as [|c s IH]; simpl; [|rewrite IH]; reflexivity. Qed.

(** X8: [fake_password_hasher] never fails and hides nothing: the
    password is what follows the first eleven characters of the result,
    and two passwords with the same result are the same password.  The
    core service and the user module compute the same. *)
Theorem fake_password_hasher_is_reversible (raw_password other : string) :
  exists hashed,
    snd (Api.fake_password_hasher raw_password) = Return hashed /\
    snd (Users.fake_password_hasher raw_password) = Return hashed /\
    substring 11 (String.length raw_password) hashed = raw_password /\
    (snd (Api.fake_password_hasher raw_password)
     = snd (Api.fake_password_hasher other) ->
     raw_password = other).
Proof.
  exists ("supersecret" ++ raw_password)%string.
  split; [reflexivity|]. split; [reflexivity|].
  split; [cbn; apply substring_all|].
  cbn. intros H. injection H as H. exact H.
Qed.

(** ** Bodies that are no [UserIn] *)

Lemma validate_field_raises f data e :
  validate_field f data = Raise e -> exists text, e = ValidationError text.
Proof.
  unfold validate_field.
  destruct (get data (name f)) as [v|].
  - destruct (annotation f v); [discriminate|].
    intros H. injection H as <-. eauto.
  - destruct (default f); [discriminate|].
    intros H. injection H as <-. eauto.
Qed.

Lemma model_validate_raises (m : model) data e :
  model_validate m data = Raise e -> exists text, e = ValidationError text.
Proof.
  induction m as [|f m IH]; cbn [model_validate]; [discriminate|].
  destruct (validate_field f data) as [v|e'] eqn:Hf; cbn [bind].
  - destruct (model_validate m data) as [rest|e''] eqn:Hm; cbn [bind].
    + discriminate.
    + intros H. injection H as <-. apply IH. reflexivity.
  - intros H. injection H as <-. eapply validate_field_raises; eauto.
Qed.

Lemma bind_body_invalid (m : model) body :
  (forall instance, model_validate m body <> Return instance) ->
  exists text,
    bind_body m body
    = ([], Raise (RequestValidationError [mkError ["body"] text (VDict body)])).
Proof.
  intros Hinvalid. unfold bind_body.
  destruct (model_validate m body) as [instance|e] eqn:Hm.
  - exfalso. apply (Hinvalid instance). reflexivity.
  - apply model_validate_raises in Hm. destruct Hm as [text ->].
    exists text. reflexivity.
Qed.


(** ** The user module: the header of [GET /items-header/{item_id}] *)

(** X10: for an [item_id] that is no key of the user module's [items],
    [read_item_header] raises its 404 with the header [X-Error], but the
    answer carries no such header: the module's own [http_exception_handler]
    builds a plain-text 404 "Item not found" from the detail and the
    status alone, where the default handler would have passed the header
    on.  No answer of this route has an extra header. *)
Theorem read_item_header_loses_X_Error
    (str_of_errors : list error_details -> string) (item_id : string) :
  extra_headers (snd (Users.GET_items_header str_of_errors item_id)) = [] /\
  (get Users.items item_id = None ->
   snd (Users.read_item_header item_id)
     = [("X-Error", "There goes my error")] /\
   snd (Users.GET_items_header str_of_errors item_id)
     = mkHeaded (mkResponse 404 (PlainText "Item not found")) [] /\
   extra_headers
     (default_http_exception_handler 404 "Item not found"
        (snd (Users.read_item_header item_id)))
     = [("X-Error", "There goes my error")]) /\
  (forall record, get Users.items item_id = Some record ->
   snd (Users.GET_items_header str_of_errors item_id)
     = mkHeaded (mkResponse 200 (JSON (VDict [("item", VDict record)]))) []).
Proof.
  unfold Users.GET_items_header, Users.read_item_header, contains, getitem.
  destruct (get Users.items item_id) as [record|] eqn:Hget; cbn.
  - split; [reflexivity|]. split; [discriminate|].
    intros record' H. injection H as <-. reflexivity.
  - split; [reflexivity|]. split; [|discriminate].
    intros _. repeat split; reflexivity.
Qed.

(** ** Optional query values *)

(** X11: the answer of [read_user_item] always has [item_id] and
    [owner_id] as given in the path; it has a field [q] exactly when [q]
    was given and is not empty, and the long [description] exactly when
    [short] is not set. *)
Theorem read_user_item_fields (user_id : Z) (item_id : string)
    (q : option string) (short : option bool) :
  exists item,
    reply (Api.GET_users_items user_id item_id q short)
      = mkResponse 200 (JSON (VDict item)) /\
    get item "item_id" = Some (VStr item_id) /\
    get item "owner_id" = Some (VInt user_id) /\
    (In "q" (keys item) <-> truthy q = true) /\
    (truthy q = true -> get item "q" = Some (Api.opt_str q)) /\
    (In "description" (keys item) <-> Api.default_to false short = false) /\
    (Api.default_to false short = false ->
     get item "description" = Some (VStr Api.long_description)).
Proof.
  destruct q as [[|c s]|], short as [[|]|];
    (eexists; split; [reflexivity|]); cbn;
    repeat split; intros; try reflexivity; try discriminate;
    intuition discriminate.
Qed.

(** X12: [read_query] answers with [q] when [q] is given and not empty,
    and with the cookie [last_query] otherwise, after the two providers
    have run in their order; an empty [q] counts as no [q]. *)
Theorem read_query_falls_back_to_cookie (q last_query : option string) :
  reply (Dependencies.GET_items_read_query q last_query)
    = mkResponse 200
        (JSON (VDict [("q_or_cookie",
                       Api.opt_str (if truthy q then q else last_query))])) /\
  trace (Dependencies.GET_items_read_query q last_query)
    = [Enter "query_extractor"; Enter "query_or_cookie_extractor";
       Enter "read_query"] /\
  Dependencies.GET_items_read_query (Some "") last_query
    = Dependencies.GET_items_read_query None last_query.
Proof.
  destruct q as [[|c s]|]; repeat split; reflexivity.
Qed.

(** X13: on the gated route the gates run in their order: a supplied
    [x-token] that is not the secret ends the request with the 400 of
    [verify_token], whatever [x-key] is or is not, and [verify_key] is
    never entered. *)
Theorem wrong_token_stops_before_verify_key
    (x_token : string) (x_key : option string) :
  x_token <> "fake-super-secret-token" ->
  reply (Dependencies.GET_items_l86 (Some x_token) x_key)
    = mkResponse 400 (JSON (VDict [("detail", VStr "X-Token header invalid")])) /\
  trace (Dependencies.GET_items_l86 (Some x_token) x_key)
    = [Enter "verify_token"] /\
  entered "verify_key"
    (trace (Dependencies.GET_items_l86 (Some x_token) x_key)) = false.
Proof.
  intros Hne. apply String.eqb_neq in Hne.
  rewrite gated_items_cases, Hne.
  destruct x_key; repeat split; reflexivity.
Qed.

Lemma wrong_token_stops_before_verify_key_witness :
  reply (Dependencies.GET_items_l86 (Some "guess") None)
    = mkResponse 400 (JSON (VDict [("detail", VStr "X-Token header invalid")])) /\
  trace (Dependencies.GET_items_l86 (Some "guess") None)
    = [Enter "verify_token"] /\
  entered "verify_key"
    (trace (Dependencies.GET_items_l86 (Some "guess") None)) = false.
Proof.
  apply (wrong_token_stops_before_verify_key "guess" None). discriminate.
Defined.

(** ** Which endpoints can be served at all *)

(** [serve_with e routes]: a request that [dispatch] hands to the endpoint
    [e], built from the first of [routes] that names [e]. *)
Ltac serve_with e rs :=
  lazymatch rs with
  | ?r :: ?rs' =>
      let e' := eval cbv in (endpoint r) in
      lazymatch e' with
      | e => exists (method r), (instantiate (path r)); eexists; reflexivity
      | _ => serve_with e rs'
      end
  end.

Lemma api_shadowed_items_unreachable (m p : string) (params : dict string) :
  dispatch Api.routes m p <> Matched Api.Name.cookie_items params /\
  dispatch Api.routes m p <> Matched Api.Name.header_items params /\
  dispatch Api.routes m p <> Matched Api.Name.cookie_items2 params /\
  dispatch Api.routes m p <> Matched Api.Name.headers_items params.
Proof.
  repeat split; intros H; apply dispatch_first_full in H;
    destruct H as (before & r & after & Heq & He & Hm & Hb);
    unfold Api.routes in Heq; locate_route before Heq He.
  - shadowed_by (mkRoute "GET" "/items/" Api.Name.read_items) Hb Hm.
  - shadowed_by (mkRoute "GET" "/items/" Api.Name.read_items) Hb Hm.
  - shadowed_by (mkRoute "GET" "/items2/" Api.Name.read_items2) Hb Hm.
  - shadowed_by (mkRoute "GET" "/items2/" Api.Name.read_items2) Hb Hm.
Qed.

Lemma dependencies_shadowed_unreachable (m p : string)
    (params : dict string) :
  dispatch Dependencies.routes m p
    <> Matched Dependencies.Name.read_items_l49 params /\
  dispatch Dependencies.routes m p
    <> Matched Dependencies.Name.read_query params /\
  dispatch Dependencies.routes m p
    <> Matched Dependencies.Name.read_items_l86 params.
Proof.
  repeat split; intros H; apply dispatch_first_full in H;
    destruct H as (before & r & after & Heq & He & Hm & Hb);
    unfold Dependencies.routes in Heq; locate_route before Heq He;
    shadowed_by (mkRoute "GET" "/items/" Dependencies.Name.read_items_l38)
                Hb Hm.
Qed.

(** X14: in the core service the endpoints that no request can reach are
    exactly the later declarations of a method and path already
    declared: [cookie_items], [header_items], [cookie_items2],
    [headers_items], the second [get_portal] and the second
    [create_user]; every other endpoint is served for some request. *)
Theorem api_endpoint_served_iff_first_declared (e : Api.Name.endpoint) :
  (exists m p params, dispatch Api.routes m p = Matched e params)
  <-> ~ In e [Api.Name.cookie_items; Api.Name.header_items;
              Api.Name.cookie_items2; Api.Name.headers_items;
              Api.Name.get_portal_l532; Api.Name.create_user_l565].
Proof.
  split.
  - intros (m & p & params & H) Hdead.
    pose proof (api_shadowed_items_unreachable m p params)
      as (H1 & H2 & H3 & H4).
    pose proof (api_shadowed_unreachable m p params) as (H5 & H6).
    simpl in Hdead.
    repeat (destruct Hdead as [<- | Hdead]; [contradiction|]).
    exact Hdead.
  - intros Hlive.
    destruct e;
      try (exfalso; apply Hlive; simpl; tauto);
      match goal with
      | |- exists m p params, _ = Matched ?e params =>
          let rs := eval cbv delta [Api.routes] in Api.routes in
          serve_with e rs
      end.
Qed.

(** X15: in the user module the second and the third [read_item] are the
    endpoints no request can reach, and in the dependency module the
    second [read_items], [read_query] and the [read_items] behind the
    header gates are: in this application the two gates never run.
    Every other endpoint of the two modules is served for some request. *)
Theorem users_dependencies_endpoint_served_iff_first_declared :
  (forall e : Users.Name.endpoint,
     (exists m p params, dispatch Users.routes m p = Matched e params)
     <-> ~ In e [Users.Name.read_item_l86; Users.Name.read_item_l183]) /\
  (forall e : Dependencies.Name.endpoint,
     (exists m p params, dispatch Dependencies.routes m p = Matched e params)
     <-> ~ In e [Dependencies.Name.read_items_l49;
                 Dependencies.Name.read_query;
                 Dependencies.Name.read_items_l86]).
Proof.
  split; intros e; split.
  - intros (m & p & params & H) Hdead.
    pose proof (users_shadowed_unreachable m p params) as (H1 & H2).
    simpl in Hdead.
    repeat (destruct Hdead as [<- | Hdead]; [contradiction|]).
    exact Hdead.
  - intros Hlive.
    destruct e;
      try (exfalso; apply Hlive; simpl; tauto);
      match goal with
      | |- exists m p params, _ = Matched ?e params =>
          let rs := eval cbv delta [Users.routes] in Users.routes in
          serve_with e rs
      end.
  - intros (m & p & params & H) Hdead.
    pose proof (dependencies_shadowed_unreachable m p params)
      as (H1 & H2 & H3).
    simpl in Hdead.
    repeat (destruct Hdead as [<- | Hdead]; [contradiction|]).
    exact Hdead.
  - intros Hlive.
    destruct e;
      try (exfalso; apply Hlive; simpl; tauto);
      match goal with
      | |- exists m p params, _ = Matched ?e params =>
          let rs := eval cbv delta [Dependencies.routes]
                    in Dependencies.routes in
          serve_with e rs
      end.
Qed.

(** ** The core service: a path as a parameter *)

Lemma join_split_slash (s : string) : join_slash (split_slash s) = s.
Proof.
  induction s as [|c s IH]; [reflexivity|].
  cbn [split_slash].
  pose proof (split_slash_nonempty s) as Hne.
  destruct (Ascii.eqb_spec c slash) as [-> | _];
    destruct (split_slash s) as [|h t]; try contradiction.
  - change (join_slash (EmptyString :: h :: t))
      with (String slash (join_slash (h :: t))).
    rewrite IH. reflexivity.
  - destruct t as [|h' t'].
    + change (String c h = String c s). cbn in IH. rewrite IH. reflexivity.
    + change (String c (join_slash (h :: h' :: t')) = String c s).
      rewrite IH. reflexivity.
Qed.

(** X16: [GET /files/{file_path:path}] hands [read_file] everything that
    follows [/files/], slashes included and the empty path too, and
    [read_file] answers with it unchanged (for a path free of line feeds,
    at which the pattern of a path parameter stops). *)
Theorem read_file_keeps_the_whole_path (file_path : string) :
  has_line_feed file_path = false ->
  dispatch Api.routes "GET" ("/files/" ++ file_path)
    = Matched Api.Name.read_file [("file_path", file_path)] /\
  reply (Api.GET_files file_path)
    = mkResponse 200 (JSON (VDict [("file_path", VStr file_path)])).
Proof.
  intros _. split; [|reflexivity].
  pose proof (split_slash_append "/files/" file_path) as Happend.
  pose proof (join_split_slash file_path) as Hjoin.
  pose proof (split_slash_nonempty file_path) as Hne.
  destruct (split_slash file_path) as [|x segs]; [contradiction|].
  assert (Hsplit : split_slash ("/files/" ++ file_path)
                   = "" :: "files" :: x :: segs)
    by (rewrite Happend; reflexivity).
  eapply (dispatch_nth _ 11%nat); [reflexivity | reflexivity | |].
  - cbv delta [Api.routes]. cbn [firstn].
    repeat constructor; intros ?; route_match Hsplit;
      vm_compute; discriminate.
  - route_match Hsplit. cbn -[join_slash]. rewrite Hjoin. reflexivity.
Qed.

Lemma read_file_keeps_the_whole_path_witness :
  dispatch Api.routes "GET" ("/files/" ++ "home/rick/portal.txt")
    = Matched Api.Name.read_file [("file_path", "home/rick/portal.txt")] /\
  reply (Api.GET_files "home/rick/portal.txt")
    = mkResponse 200
        (JSON (VDict [("file_path", VStr "home/rick/portal.txt")])).
Proof.
  apply (read_file_keeps_the_whole_path "home/rick/portal.txt"). reflexivity.
Defined.

Lemma api_hello_path (name : string) :
  path_segment name ->
  split_slash ("/hello/" ++ name) = [""; "hello"; name].
Proof.
  intros [_ Hs]. rewrite (split_slash_app "/hello/" name Hs). reflexivity.
Qed.

(** X19: [GET /hello/{name}] is served by [hello_name], not by [hello],
    and greets the name of the path: [{"message": "Hello <name>"}]. *)
Theorem hello_name_greets_the_path_name (name : string) :
  path_segment name ->
  dispatch Api.routes "GET" ("/hello/" ++ name)
    = Matched Api.Name.hello_name [("name", name)] /\
  dispatch Api.routes "GET" "/hello" = Matched Api.Name.hello [] /\
  reply (Api.GET_hello_name name)
    = mkResponse 200 (JSON (VDict [("message", VStr ("Hello " ++ name))])).
Proof.
  intros Hseg. pose proof (api_hello_path name Hseg) as Hsplit.
  destruct Hseg as [Hne _].
  split; [|split; reflexivity].
  destruct name as [|c s]; [contradiction|].
  dispatch_at 2%nat Hsplit.
Qed.

Lemma hello_name_greets_the_path_name_witness :
  dispatch Api.routes "GET" ("/hello/" ++ "World")
    = Matched Api.Name.hello_name [("name", "World")] /\
  dispatch Api.routes "GET" "/hello" = Matched Api.Name.hello [] /\
  reply (Api.GET_hello_name "World")
    = mkResponse 200 (JSON (VDict [("message", VStr ("Hello " ++ "World"))])).
Proof.
  apply (hello_name_greets_the_path_name "World").
  split; [discriminate | reflexivity].
Defined.

(** ** The core service: items sent in a body *)

Lemma float_inv v v' : float v = Some v' -> exists m e, v' = VFloat m e.
Proof.
  destruct v; cbn; intros H; try discriminate; injection H as <-; eauto.
Qed.

Lemma float_gt0_inv v v' :
  float_gt0 v = Some v' -> exists m e, v' = VFloat m e /\ (0 < m)%Z.
Proof.
  unfold float_gt0. destruct (float v) as [[| | |m e| | |]|]; try discriminate.
  destruct (Z.ltb_spec 0 m) as [Hpos|_]; [|discriminate].
  intros Heq. injection Heq as <-. eauto.
Qed.

(** A body that binds to [Item]: the instance has the six fields of the
    model in their order, a float above zero for [price], and for [tax] a
    float when the body has one and [None] when it has not. *)
Lemma Item_inv (HttpUrl : value -> option value) body item :
  model_validate (Api.Item HttpUrl) body = Return item ->
  exists name description pm pe tax tags image,
    item = [("name", name); ("description", description);
            ("price", VFloat pm pe); ("tax", tax);
            ("tags", tags); ("image", image)] /\
    (0 < pm)%Z /\
    (get body "tax" = None -> tax = VNone) /\
    (get body "tax" <> None -> exists tm te, tax = VFloat tm te).
Proof.
  unfold Api.Item. cbn [model_validate]. unfold validate_field.
  cbn [name annotation default].
  intros H.
  destruct (get body "name") as [v1|]; [|discriminate].
  destruct (str v1) as [name|]; [|discriminate]. cbn [bind] in H.
  destruct (match get body "description" with
            | Some v => _ | None => _ end) as [description|];
    [|discriminate]. cbn [bind] in H.
  destruct (get body "price") as [v3|]; [|discriminate].
  destruct (float_gt0 v3) as [price|] eqn:Hprice; [|discriminate].
  apply float_gt0_inv in Hprice. destruct Hprice as (pm & pe & -> & Hpos).
  cbn [bind] in H.
  destruct (get body "tax") as [v4|] eqn:Htax.
  - destruct (float v4) as [tax|] eqn:Hfloat; [|discriminate].
    apply float_inv in Hfloat. destruct Hfloat as (tm & te & ->).
    cbn [bind] in H.
    destruct (match get body "tags" with
              | Some v => _ | None => _ end) as [tags|];
      [|discriminate]. cbn [bind] in H.
    destruct (match get body "image" with
              | Some v => _ | None => _ end) as [image|];
      [|discriminate]. cbn [bind] in H.
    injection H as <-.
    exists name, description, pm, pe, (VFloat tm te), tags, image.
    split; [reflexivity|]. split; [exact Hpos|].
    split; [discriminate | eauto].
  - cbn [bind] in H.
    destruct (match get body "tags" with
              | Some v => _ | None => _ end) as [tags|];
      [|discriminate]. cbn [bind] in H.
    destruct (match get body "image" with
              | Some v => _ | None => _ end) as [image|];
      [|discriminate]. cbn [bind] in H.
    injection H as <-.
    exists name, description, pm, pe, VNone, tags, image.
    split; [reflexivity|]. split; [exact Hpos|].
    split; [reflexivity | congruence].
Qed.




